(** * The orchestration helpers of the DemoBlaze end-to-end suite

    A shallow embedding of the TypeScript helpers that drive the checkout
    scenario: [utils/actions], [helpers/browser-setup], [helpers/auth],
    [helpers/cart], [utils/api-helper] and the two add-to-cart steps of
    [step-definitions].

    Playwright itself is not part of the repository. Every call into it is
    answered by an environment [Env]: a record of functions from the history
    of calls made so far (and the call's arguments) to the call's outcome.
    Each call is also recorded in the trace of the [World], newest first, so
    that statements about order and about "attempted or not" can be made.

    A thrown JavaScript value is represented by its message: every handler in
    the sources reads [error instanceof Error ? error.message : String(error)]
    and every value thrown on these paths is an [Error]. *)

From Stdlib Require Import String Ascii ZArith List Bool Lia DecimalString.
Import ListNotations.
Local Open Scope string_scope.
Local Open Scope Z_scope.

(* ===================================================================== *)
(** * JavaScript strings and values *)
(* ===================================================================== *)

(** The settled state of a promise, or the outcome of a synchronous call:
    a value, or a thrown error (its message). *)
Inductive result (A : Type) : Type :=
| Ok (a : A)
| Err (msg : string).
Arguments Ok {A} a.
Arguments Err {A} msg.

(** [s.startsWith(sub)]. *)
Fixpoint startsWith (s sub : string) {struct sub} : bool :=
  match sub, s with
  | EmptyString, _ => true
  | String _ _, EmptyString => false
  | String c sub', String d s' => Ascii.eqb c d && startsWith s' sub'
  end.

(** [s.includes(sub)]: [sub] occurs at some position of [s]. *)
Fixpoint includes (s sub : string) : bool :=
  startsWith s sub ||
  match s with
  | EmptyString => false
  | String _ s' => includes s' sub
  end.

(** Template-literal rendering of an integral number: [`${n}`]. *)
Definition show (n : Z) : string := NilZero.string_of_int (Z.to_int n).

(** [xs.join(sep)] on strings. *)
Fixpoint join (sep : string) (xs : list string) : string :=
  match xs with
  | [] => ""
  | [x] => x
  | x :: rest => x ++ sep ++ join sep rest
  end.

(** An optional string parameter ([name?: string]); [undefined] is [None].
    [if (name)] is false for [undefined] and for the empty string. *)
Definition truthy (o : option string) : bool :=
  match o with
  | None => false
  | Some s => negb (s =? "")%string
  end.

(** [name || fallback]. *)
Definition or_else (o : option string) (fallback : string) : string :=
  match o with
  | Some s => if (s =? "")%string then fallback else s
  | None => fallback
  end.

(** The ASCII restriction of [String.prototype.toLowerCase]. The helpers are
    parametrised by the lower-casing function; this one instantiates them on
    ASCII messages. *)
Definition ascii_lower (c : ascii) : ascii :=
  let n := nat_of_ascii c in
  if ((65 <=? n)%nat && (n <=? 90)%nat)%bool then ascii_of_nat (n + 32) else c.

Fixpoint ascii_toLowerCase (s : string) : string :=
  match s with
  | EmptyString => EmptyString
  | String c s' => String (ascii_lower c) (ascii_toLowerCase s')
  end.

(** The ASCII restriction of [String.prototype.trim]: white space is space,
    tab, line feed, vertical tab, form feed and carriage return. *)
Definition is_space (c : ascii) : bool :=
  let n := nat_of_ascii c in
  ((n =? 32) || ((9 <=? n) && (n <=? 13)))%nat.

Fixpoint trimStart (s : string) : string :=
  match s with
  | EmptyString => EmptyString
  | String c s' => if is_space c then trimStart s' else s
  end.

Fixpoint trimEnd (s : string) : string :=
  match s with
  | EmptyString => EmptyString
  | String c s' =>
      match trimEnd s' with
      | EmptyString => if is_space c then EmptyString else String c EmptyString
      | t => String c t
      end
  end.

Definition ascii_trim (s : string) : string := trimEnd (trimStart s).

(** A decoded JSON body. An object is the list of its own properties in
    property order, which is the order of [Object.keys] and [Object.values].
    The payload of a number is never inspected by the helpers. *)
#[local] Unset Elimination Schemes.
Inductive json : Type :=
| JNull
| JBool (b : bool)
| JNumber (n : Z)
| JString (s : string)
| JArray (items : list json)
| JObject (props : list (string * json)).
#[local] Set Elimination Schemes.

(** [typeof v]. *)
Definition typeof (v : json) : string :=
  match v with
  | JNull => "object"
  | JBool _ => "boolean"
  | JNumber _ => "number"
  | JString _ => "string"
  | JArray _ => "object"
  | JObject _ => "object"
  end.

(** [Array.isArray(v)]. *)
Definition isArray (v : json) : bool :=
  match v with
  | JArray _ => true
  | _ => false
  end.

Definition Object_values (props : list (string * json)) : list json := map snd props.
Definition Object_keys (props : list (string * json)) : list string := map fst props.

(* ===================================================================== *)
(** * The Playwright surface *)
(* ===================================================================== *)

Inductive Browser := BrowserHandle (id : nat).
Inductive BrowserContext := ContextHandle (id : nat).
Inductive Page := PageHandle (id : nat).

(** The three launchers imported from [playwright]. *)
Inductive BrowserType := chromium | firefox | webkit.

Record LaunchOptions := {
  lo_headless : bool;
  lo_args : list string;
  lo_timeout : Z
}.

Record ContextOptions := {
  co_recordVideo : option string
}.

(** How a locator was built ([constants/selectors.ts]). *)
Inductive Query :=
| getByRole (role name : string)
| css (selector : string)
| cssHasText (selector text : string).

Record Locator := {
  loc_page : Page;
  loc_query : Query
}.

Record Dialog := {
  dialog_id : nat;
  dialog_message : string
}.

(** A network response as the helpers read it: [url()], [status()],
    [headers()['content-type']] and the outcome of [json()]. *)
Record Response := {
  resp_url : string;
  resp_status : Z;
  resp_content_type : option string;
  resp_json : result json
}.

Inductive Level := LvDebug | LvInfo | LvWarn | LvError | LvLog.

(** The second argument of a [logger] call. *)
Inductive Meta :=
| MetaNone
| MetaHeadless (headless : bool)
| MetaError (error : string).

Inductive Event :=
| EvLaunch (launcher : BrowserType) (options : LaunchOptions)
| EvNewContext (b : Browser) (options : ContextOptions)
| EvNewPage (c : BrowserContext)
| EvClosePage (p : Page)
| EvCloseContext (c : BrowserContext)
| EvCloseBrowser (b : Browser)
| EvLogger (lvl : Level) (msg : string) (meta : Meta)
| EvConsole (lvl : Level) (msg : string)
| EvClick (l : Locator) (timeout : Z)
| EvFill (l : Locator) (value : string) (timeout : Z)
| EvToBeVisible (l : Locator) (timeout : Z)
| EvWaitForVisible (l : Locator) (timeout : Z)
| EvTextContent (l : Locator) (timeout : Z)
| EvCount (l : Locator)
| EvWaitForDialog (p : Page) (timeout : Z)
| EvAwaitDialog (p : Page)
| EvAccept (d : Dialog)
| EvWaitForResponse (p : Page) (timeout : Z)
| EvResponseJson (r : Response)
| EvUnhandledRejection (reason : string).

(** Calls made so far, newest first. *)
Definition History := list Event.

(** The world outside the helpers. Each field answers one Playwright call,
    given the history at the moment of the call.

    [dialog_event] is the settlement of [page.waitForEvent('dialog')]; it is
    consulted where the promise is awaited, so that it may depend on the
    click made between arming and awaiting. [responses] lists the responses
    the page receives, in arrival order, within the timeout of a
    [page.waitForResponse], and [waitForResponse_timeout] is the message of
    the rejection when none of them satisfies the predicate. The last two
    fields are the messages of failed [expect] matchers, received value
    first. *)
Record Env := {
  launch : History -> BrowserType -> LaunchOptions -> result Browser;
  newContext : History -> Browser -> ContextOptions -> result BrowserContext;
  newPage : History -> BrowserContext -> result Page;
  page_close : History -> Page -> result unit;
  context_close : History -> BrowserContext -> result unit;
  browser_close : History -> Browser -> result unit;
  locator_click : History -> Locator -> Z -> result unit;
  locator_fill : History -> Locator -> string -> Z -> result unit;
  expect_toBeVisible : History -> Locator -> Z -> result unit;
  locator_waitFor_visible : History -> Locator -> Z -> result unit;
  locator_textContent : History -> Locator -> Z -> result (option string);
  locator_count : History -> Locator -> result Z;
  dialog_event : History -> Page -> Z -> result Dialog;
  dialog_accept : History -> Dialog -> result unit;
  responses : History -> Page -> Z -> list Response;
  waitForResponse_timeout : History -> Page -> Z -> string;
  toBeGreaterThanOrEqual_message : Z -> Z -> string;
  toEqual_message : Z -> Z -> string
}.

(* ===================================================================== *)
(** * Program state and the monad of effects *)
(* ===================================================================== *)

(** The module-level variables of [helpers/browser-setup] together with the
    trace of calls. *)
Record World := {
  browser : option Browser;
  context : option BrowserContext;
  page : option Page;
  trace : History
}.

(** A computation may change the world and either returns or throws; what it
    did before throwing stays done. *)
Definition M (A : Type) : Type := World -> result A * World.

Definition ret {A} (a : A) : M A := fun w => (Ok a, w).

Definition throw {A} (msg : string) : M A := fun w => (Err msg, w).

Definition bind {A B} (m : M A) (k : A -> M B) : M B :=
  fun w =>
    match m w with
    | (Ok a, w') => k a w'
    | (Err msg, w') => (Err msg, w')
    end.

(** [try { body } catch (error) { handler }]. *)
Definition try_catch {A} (body : M A) (handler : string -> M A) : M A :=
  fun w =>
    match body w with
    | (Ok a, w') => (Ok a, w')
    | (Err msg, w') => handler msg w'
    end.

Declare Scope js_scope.
Delimit Scope js_scope with js.
Notation "x <- m ;; k" := (bind m (fun x => k))
  (at level 61, m at next level, right associativity) : js_scope.
Notation "m ;; k" := (bind m (fun _ => k))
  (at level 61, right associativity) : js_scope.
Local Open Scope js_scope.

Definition record (e : Event) (w : World) : World :=
  {| browser := browser w; context := context w; page := page w;
     trace := e :: trace w |}.

(** A call into Playwright: answered by the environment on the current
    history, and recorded. *)
Definition call {A} (e : Event) (answer : History -> result A) : M A :=
  fun w => (answer (trace w), record e w).

Definition emit (e : Event) : M unit := fun w => (Ok tt, record e w).

Definition console_log (msg : string) : M unit := emit (EvConsole LvLog msg).
Definition console_warn (msg : string) : M unit := emit (EvConsole LvWarn msg).

(** [utils/logger] is not among the sources; a logger call is recorded and
    returns. *)
Definition logger_info (msg : string) (meta : Meta) : M unit := emit (EvLogger LvInfo msg meta).
Definition logger_debug (msg : string) : M unit := emit (EvLogger LvDebug msg MetaNone).
Definition logger_error (msg : string) (meta : Meta) : M unit := emit (EvLogger LvError msg meta).

Definition get_browser : M (option Browser) := fun w => (Ok (browser w), w).
Definition get_context : M (option BrowserContext) := fun w => (Ok (context w), w).
Definition get_page : M (option Page) := fun w => (Ok (page w), w).

Definition set_browser (b : option Browser) : M unit :=
  fun w => (Ok tt, {| browser := b; context := context w; page := page w; trace := trace w |}).
Definition set_context (c : option BrowserContext) : M unit :=
  fun w => (Ok tt, {| browser := browser w; context := c; page := page w; trace := trace w |}).
Definition set_page (p : option Page) : M unit :=
  fun w => (Ok tt, {| browser := browser w; context := context w; page := p; trace := trace w |}).

(* ===================================================================== *)
(** * constants/selectors.ts *)
(* ===================================================================== *)

Module SELECTORS.
Definition LOGIN_LINK (pg : Page) := {| loc_page := pg; loc_query := getByRole "link" "Log in" |}.
Definition CART_LINK (pg : Page) := {| loc_page := pg; loc_query := getByRole "link" "Cart" |}.
Definition LOGIN_USERNAME_INPUT (pg : Page) := {| loc_page := pg; loc_query := css "#loginusername" |}.
Definition LOGIN_PASSWORD_INPUT (pg : Page) := {| loc_page := pg; loc_query := css "#loginpassword" |}.
Definition LOGIN_BUTTON (pg : Page) := {| loc_page := pg; loc_query := getByRole "button" "Log in" |}.
Definition ADD_TO_CART_BUTTON (pg : Page) := {| loc_page := pg; loc_query := getByRole "link" "Add to cart" |}.
Definition PRODUCT_TITLE (pg : Page) := {| loc_page := pg; loc_query := css "h2.name" |}.
Definition CART_TABLE (pg : Page) := {| loc_page := pg; loc_query := css "#tbodyid" |}.
Definition CART_ITEM_ROW (pg : Page) := {| loc_page := pg; loc_query := css "#tbodyid tr" |}.
Definition PLACE_ORDER_BUTTON (pg : Page) := {| loc_page := pg; loc_query := getByRole "button" "Place Order" |}.
Definition ORDER_NAME_INPUT (pg : Page) := {| loc_page := pg; loc_query := css "#name" |}.
Definition ORDER_COUNTRY_INPUT (pg : Page) := {| loc_page := pg; loc_query := css "#country" |}.
Definition ORDER_CITY_INPUT (pg : Page) := {| loc_page := pg; loc_query := css "#city" |}.
Definition ORDER_CARD_INPUT (pg : Page) := {| loc_page := pg; loc_query := css "#card" |}.
Definition ORDER_MONTH_INPUT (pg : Page) := {| loc_page := pg; loc_query := css "#month" |}.
Definition ORDER_YEAR_INPUT (pg : Page) := {| loc_page := pg; loc_query := css "#year" |}.
Definition PURCHASE_BUTTON (pg : Page) := {| loc_page := pg; loc_query := getByRole "button" "Purchase" |}.
Definition SWEET_ALERT_MESSAGE (pg : Page) := {| loc_page := pg; loc_query := css ".sweet-alert p" |}.
End SELECTORS.

Module TIMEOUTS.
Definition SHORT : Z := 5000.
Definition MEDIUM : Z := 10000.
Definition LONG : Z := 30000.
Definition EXTRA_LONG : Z := 60000.
End TIMEOUTS.

(** The double-quote character of the messages. *)
Definition dq : string := String (ascii_of_nat 34) EmptyString.

(** A promise is represented by what awaiting it does: it yields the value
    the promise resolves with, or throws what it rejects with. A plain value
    [v] handed where a promise is expected is [ret v]: [await v] yields [v].
    Every promise of the helpers is awaited at most once. *)
Definition Promise (A : Type) : Type := M A.

Definition await {A} (p : Promise A) : M A := p.

(** [p.catch(() => null)]. *)
Definition catch_null {A} (p : Promise A) : Promise (option A) :=
  try_catch (a <- p ;; ret (Some a)) (fun _ => ret None).

(** A promise that goes out of scope with no handler attached and without
    being awaited. Nothing waits for it; if it rejects, the runtime reports
    an unhandled rejection with its reason. *)
Definition abandon {A} (p : Promise A) : M unit :=
  fun w =>
    match p w with
    | (Err reason, _) => (Ok tt, record (EvUnhandledRejection reason) w)
    | (Ok _, _) => (Ok tt, w)
    end.

(** The properties of [TEST_CONFIG] ([config/test-config.ts]) that
    [helpers/browser-setup] reads. *)
Record TestConfig := {
  cfg_browser_headless : bool;
  cfg_browser_channel : string;
  cfg_browser_timeout : Z;
  cfg_videos_enabled : bool;
  cfg_videos_path : string
}.

(** [fixtures/test-data.ts] *)
Record LoginCredentials := {
  username : string;
  password : string
}.

Definition MIN_PRODUCTS : Z := 5.

Section Helpers.

Variable env : Env.
Variable TEST_CONFIG : TestConfig.
(** [String.prototype.toLowerCase] and [String.prototype.trim]. *)
Variable toLowerCase : string -> string.
Variable trim : string -> string.

(* ------------------------------------------------------------------- *)
(** ** Playwright calls *)

Definition locator_click_ (l : Locator) (timeout : Z) : M unit :=
  call (EvClick l timeout) (fun h => locator_click env h l timeout).

Definition locator_fill_ (l : Locator) (value : string) (timeout : Z) : M unit :=
  call (EvFill l value timeout) (fun h => locator_fill env h l value timeout).

Definition expect_toBeVisible_ (l : Locator) (timeout : Z) : M unit :=
  call (EvToBeVisible l timeout) (fun h => expect_toBeVisible env h l timeout).

Definition locator_waitFor_visible_ (l : Locator) (timeout : Z) : M unit :=
  call (EvWaitForVisible l timeout) (fun h => locator_waitFor_visible env h l timeout).

Definition locator_textContent_ (l : Locator) (timeout : Z) : M (option string) :=
  call (EvTextContent l timeout) (fun h => locator_textContent env h l timeout).

Definition locator_count_ (l : Locator) : M Z :=
  call (EvCount l) (fun h => locator_count env h l).

(** [page.waitForEvent('dialog', { timeout })]: the listener is armed now;
    the promise settles where it is awaited. *)
Definition waitForEvent_dialog (pg : Page) (timeout : Z) : M (Promise Dialog) :=
  emit (EvWaitForDialog pg timeout) ;;
  ret (call (EvAwaitDialog pg) (fun h => dialog_event env h pg timeout)).

(** [dialog.accept()]. *)
Definition accept (dialog : Dialog) : M unit :=
  call (EvAccept dialog) (fun h => dialog_accept env h dialog).

(** [await page.waitForResponse(predicate, { timeout })]: the first response,
    in arrival order, on which the predicate is true; a rejection when the
    timeout passes without one. *)
Definition waitForResponse (pg : Page) (predicate : Response -> bool) (timeout : Z)
  : M Response :=
  call (EvWaitForResponse pg timeout)
       (fun h => match find predicate (responses env h pg timeout) with
                 | Some r => Ok r
                 | None => Err (waitForResponse_timeout env h pg timeout)
                 end).

(** [await response.json()]. *)
Definition response_json (r : Response) : M json :=
  call (EvResponseJson r) (fun _ => resp_json r).

(** [expect(received).toBeGreaterThanOrEqual(expected)] and
    [expect(received).toEqual(expected)] on integral numbers. *)
Definition expect_toBeGreaterThanOrEqual (received expected : Z) : M unit :=
  if expected <=? received then ret tt
  else throw (toBeGreaterThanOrEqual_message env received expected).

Definition expect_toEqual (received expected : Z) : M unit :=
  if received =? expected then ret tt
  else throw (toEqual_message env received expected).

(* ------------------------------------------------------------------- *)
(** ** utils/actions.ts *)

Definition clickElement (locator : Locator) (actionDescription : option string)
    (timeout : Z) : M unit :=
  try_catch
    (locator_click_ locator timeout ;;
     if truthy actionDescription
     then console_log ("✓ " ++ or_else actionDescription "")
     else ret tt)
    (fun errorMessage =>
       let description := or_else actionDescription "Click action" in
       throw (description ++ " failed: " ++ errorMessage ++ ". " ++
              "Please verify the element is visible and actionable.")).

Definition fillInput (locator : Locator) (value : string) (fieldName : option string)
    (timeout : Z) : M unit :=
  try_catch
    (locator_fill_ locator value timeout ;;
     if truthy fieldName
     then console_log ("✓ Filled " ++ or_else fieldName "" ++ " field")
     else ret tt)
    (fun errorMessage =>
       let field := or_else fieldName "input" in
       throw ("Failed to fill " ++ field ++ " field: " ++ errorMessage ++ ". " ++
              "Please verify the field is visible and editable.")).

Definition verifyVisible (locator : Locator) (elementName : option string)
    (timeout : Z) : M unit :=
  try_catch
    (expect_toBeVisible_ locator timeout ;;
     if truthy elementName
     then console_log ("✓ " ++ or_else elementName "" ++ " is visible")
     else ret tt)
    (fun errorMessage =>
       let name := or_else elementName "Element" in
       throw (name ++ " is not visible: " ++ errorMessage ++ ". " ++
              "Please verify the element exists and is displayed.")).

Definition handleDialog (pg : Page) (expectedMessage : option string) (timeout : Z)
  : M (option string) :=
  try_catch
    (dialog <- (p <- waitForEvent_dialog pg timeout ;; await (catch_null p)) ;;
     match dialog with
     | None => ret None
     | Some dialog =>
         let message := dialog_message dialog in
         accept dialog ;;
         (if truthy expectedMessage &&
             negb (includes (toLowerCase message)
                            (toLowerCase (or_else expectedMessage "")))
          then throw ("Unexpected dialog message: " ++ message ++
                      ". Expected: " ++ or_else expectedMessage "")
          else ret tt) ;;
         console_log ("✓ Dialog handled: " ++ message) ;;
         ret (Some message)
     end)
    (fun errorMessage => throw ("Dialog handling failed: " ++ errorMessage)).

Definition getText (locator : Locator) (elementName : option string) (timeout : Z)
  : M string :=
  try_catch
    (locator_waitFor_visible_ locator timeout ;;
     text <- locator_textContent_ locator timeout ;;
     match text with
     | None => throw "Element text is empty or null"
     | Some text =>
         if (text =? "")%string then throw "Element text is empty or null"
         else ret (trim text)
     end)
    (fun errorMessage =>
       let name := or_else elementName "Element" in
       throw ("Failed to get text from " ++ name ++ ": " ++ errorMessage ++ ". " ++
              "Please verify the element is visible and contains text.")).

Definition getCount (locator : Locator) (elementName : option string) : M Z :=
  try_catch
    (count <- locator_count_ locator ;;
     (if truthy elementName
      then console_log ("✓ Found " ++ show count ++ " " ++ or_else elementName "")
      else ret tt) ;;
     ret count)
    (fun errorMessage =>
       let name := or_else elementName "elements" in
       throw ("Failed to count " ++ name ++ ": " ++ errorMessage ++ ". " ++
              "Please verify the locator is correct.")).

(* ------------------------------------------------------------------- *)
(** ** helpers/browser-setup.ts *)

Definition getBrowserLauncher : BrowserType :=
  let channel := cfg_browser_channel TEST_CONFIG in
  if (channel =? "firefox")%string then firefox
  else if (channel =? "webkit")%string then webkit
  else chromium.

(** A method call on a module variable that holds [null] throws a
    [TypeError]. *)
Definition deref {A} (method : string) (o : option A) : M A :=
  match o with
  | Some a => ret a
  | None => throw ("Cannot read properties of null (reading '" ++ method ++ "')")
  end.

Definition initializeBrowser : M Page :=
  try_catch
    (b <- get_browser ;;
     match b with
     | Some _ => ret tt
     | None =>
         let launcher := getBrowserLauncher in
         let launchOptions :=
           {| lo_headless := cfg_browser_headless TEST_CONFIG;
              lo_args := ["--start-maximized"];
              lo_timeout := cfg_browser_timeout TEST_CONFIG |} in
         b' <- call (EvLaunch launcher launchOptions)
                    (fun h => launch env h launcher launchOptions) ;;
         set_browser (Some b') ;;
         logger_info ("Browser launched: " ++ cfg_browser_channel TEST_CONFIG)
                     (MetaHeadless (cfg_browser_headless TEST_CONFIG))
     end ;;
     c <- get_context ;;
     match c with
     | Some _ => ret tt
     | None =>
         let options :=
           {| co_recordVideo :=
                if cfg_videos_enabled TEST_CONFIG
                then Some (cfg_videos_path TEST_CONFIG) else None |} in
         b' <- (b <- get_browser ;; deref "newContext" b) ;;
         c' <- call (EvNewContext b' options) (fun h => newContext env h b' options) ;;
         set_context (Some c') ;;
         logger_debug "Browser context created"
     end ;;
     p <- get_page ;;
     match p with
     | Some _ => ret tt
     | None =>
         c' <- (c <- get_context ;; deref "newPage" c) ;;
         p' <- call (EvNewPage c') (fun h => newPage env h c') ;;
         set_page (Some p') ;;
         logger_debug "New page created"
     end ;;
     p <- get_page ;;
     match p with
     | Some p => ret p
     | None => throw "page is null" (* not reached: [page] was assigned above *)
     end)
    (fun error =>
       logger_error "Failed to initialize browser" (MetaError error) ;;
       throw error).

Definition getPage : M (option Page) := get_page.

Definition cleanupBrowser : M unit :=
  try_catch
    (p <- get_page ;;
     match p with
     | Some p =>
         call (EvClosePage p) (fun h => page_close env h p) ;;
         set_page None ;;
         logger_debug "Page closed"
     | None => ret tt
     end ;;
     c <- get_context ;;
     match c with
     | Some c =>
         call (EvCloseContext c) (fun h => context_close env h c) ;;
         set_context None ;;
         logger_debug "Browser context closed"
     | None => ret tt
     end ;;
     b <- get_browser ;;
     match b with
     | Some b =>
         call (EvCloseBrowser b) (fun h => browser_close env h b) ;;
         set_browser None ;;
         logger_info "Browser closed" MetaNone
     | None => ret tt
     end)
    (fun error =>
       logger_error "Error during browser cleanup" (MetaError error)).

(* ------------------------------------------------------------------- *)
(** ** helpers/auth.ts *)

Definition login (pg : Page) (credentials : LoginCredentials) : M unit :=
  try_catch
    (clickElement (SELECTORS.LOGIN_LINK pg) (Some "Click login link") TIMEOUTS.MEDIUM ;;
     fillInput (SELECTORS.LOGIN_USERNAME_INPUT pg) (username credentials)
               (Some "Username") TIMEOUTS.MEDIUM ;;
     fillInput (SELECTORS.LOGIN_PASSWORD_INPUT pg) (password credentials)
               (Some "Password") TIMEOUTS.MEDIUM ;;
     dialogPromise <- (p <- waitForEvent_dialog pg TIMEOUTS.MEDIUM ;;
                       ret (catch_null p)) ;;
     clickElement (SELECTORS.LOGIN_BUTTON pg) (Some "Click login button") TIMEOUTS.MEDIUM ;;
     dialog <- await dialogPromise ;;
     match dialog with
     | Some dialog =>
         let message := dialog_message dialog in
         accept dialog ;;
         if includes (toLowerCase message) "wrong password" ||
            includes (toLowerCase message) "user does not exist"
         then throw ("Login failed: " ++ message)
         else ret tt
     | None => ret tt
     end ;;
     console_log ("✓ Successfully logged in as " ++ username credentials))
    (fun errorMessage =>
       throw ("Login failed for user " ++ dq ++ username credentials ++ dq ++ ": " ++
              errorMessage ++ ". " ++
              "Please verify credentials and that the site is accessible.")).

(* ------------------------------------------------------------------- *)
(** ** helpers/cart.ts *)

(** [return dialogPromise] in an [async] function resolves the function's
    promise with [dialogPromise]: the returned promise settles as the dialog
    wait does. A rejection of the wait therefore reaches whoever awaits
    [addProductToCart(page)] as it is; it does not pass through the [catch]
    of the function, which only sees what is awaited inside the [try].

    When the click throws, control leaves the [try] while [dialogPromise] has
    neither been awaited nor been given a handler: the function throws the
    wrapped click error and the armed wait is abandoned. *)
Definition addProductToCart (pg : Page) : M Dialog :=
  dialogPromise <-
    try_catch
      (dialogPromise <- waitForEvent_dialog pg TIMEOUTS.MEDIUM ;;
       try_catch
         (clickElement (SELECTORS.ADD_TO_CART_BUTTON pg) (Some "Click add to cart button")
                       TIMEOUTS.MEDIUM)
         (fun error => abandon dialogPromise ;; throw error) ;;
       ret dialogPromise)
      (fun errorMessage =>
         throw ("Add to cart failed: " ++ errorMessage ++ ". " ++
                "Please ensure you are on a product page and the product is available.")) ;;
  await dialogPromise.

Definition verifyAddToCartSuccess (pg : Page) (dialogPromise : Promise Dialog) : M unit :=
  try_catch
    (dialog <- await dialogPromise ;;
     let message := dialog_message dialog in
     let messageLower := toLowerCase message in
     (if negb (includes messageLower "product added") && negb (includes messageLower "added")
      then accept dialog ;;
           throw ("Unexpected dialog message: " ++ message ++ ". Expected: Product added")
      else ret tt) ;;
     accept dialog ;;
     console_log ("✓ Success message verified: " ++ dq ++ message ++ dq ++ " - dialog dismissed"))
    (fun errorMessage =>
       throw ("Add to cart success verification failed: " ++ errorMessage ++ ". " ++
              "Please verify the product was added successfully.")).

Definition navigateToCart (pg : Page) : M unit :=
  try_catch
    (clickElement (SELECTORS.CART_LINK pg) (Some "Click cart link") TIMEOUTS.MEDIUM ;;
     verifyVisible (SELECTORS.CART_TABLE pg) (Some "Cart table") TIMEOUTS.MEDIUM ;;
     console_log "✓ Navigated to cart page")
    (fun errorMessage => throw ("Navigation to cart failed: " ++ errorMessage)).

Definition verifyCartItems (pg : Page) (expectedItemCount : Z) : M unit :=
  try_catch
    (navigateToCart pg ;;
     let cartItems := SELECTORS.CART_ITEM_ROW pg in
     verifyVisible cartItems (Some "Cart items") TIMEOUTS.MEDIUM ;;
     count <- getCount cartItems (Some "Cart items") ;;
     expect_toEqual count expectedItemCount ;;
     console_log ("✓ Cart verification passed: Found " ++ show count ++ " item(s)"))
    (fun errorMessage =>
       throw ("Cart verification failed: " ++ errorMessage ++ ". " ++
              "Expected at least " ++ show expectedItemCount ++ " item(s) in cart.")).

(* ------------------------------------------------------------------- *)
(** ** utils/api-helper.ts *)

(** The predicate handed to [page.waitForResponse]. *)
Definition responseMatches (endpoint : string) (expectedStatus : Z) (response : Response)
  : bool :=
  let urlMatches := includes (resp_url response) endpoint in
  let statusMatches := resp_status response =? expectedStatus in
  urlMatches && statusMatches.

Definition interceptApiRequest (pg : Page) (endpoint : string) (expectedStatus : Z)
  : M json :=
  try_catch
    (response <- waitForResponse pg (responseMatches endpoint expectedStatus)
                                 TIMEOUTS.LONG ;;
     let contentType := or_else (resp_content_type response) "" in
     (if negb (includes contentType "application/json")
      then console_warn ("Warning: Response content-type is " ++ contentType ++
                         ", expected JSON")
      else ret tt) ;;
     responseData <- response_json response ;;
     console_log ("✓ API request intercepted: " ++ endpoint ++ " - Status: " ++
                  show expectedStatus) ;;
     ret responseData)
    (fun errorMessage =>
       throw ("API interception failed for " ++ endpoint ++ ": " ++ errorMessage ++ ". " ++
              "Please verify the endpoint is correct and the API is accessible.")).

(** The assignment of [products]: the body itself when it is an array, else
    the first array among the values of a non-null object. *)
Definition extractProducts (responseData : json) : M (list json) :=
  match responseData with
  | JArray items => ret items
  | JObject responseObj =>
      match find isArray (Object_values responseObj) with
      | Some (JArray items) => ret items
      | _ =>
          throw ("Response is not an array and no array property found. " ++
                 "Received type: " ++ typeof responseData ++ ", Keys: " ++
                 join ", " (Object_keys responseObj))
      end
  | _ =>
      throw ("Response is not an array or object. Received type: " ++ typeof responseData)
  end.

(** [typeof firstProduct !== 'object' || firstProduct === null] *)
Definition notAnObject (v : json) : bool :=
  negb (typeof v =? "object")%string ||
  match v with JNull => true | _ => false end.

Definition validateProductListResponse (responseData : json) (minProducts : Z) : M unit :=
  try_catch
    (products <- extractProducts responseData ;;
     let productCount := Z.of_nat (List.length products) in
     expect_toBeGreaterThanOrEqual productCount minProducts ;;
     (if 0 <? productCount
      then match products with
           | firstProduct :: _ =>
               if notAnObject firstProduct
               then throw "Products in response are not valid objects"
               else ret tt
           | [] => ret tt
           end
      else ret tt) ;;
     console_log ("✓ Product list validation passed: Found " ++ show productCount ++
                  " products (minimum: " ++ show minProducts ++ ")"))
    (fun errorMessage =>
       throw ("Product list validation failed: " ++ errorMessage ++ ". " ++
              "Expected at least " ++ show minProducts ++ " products in the response.")).

(* ------------------------------------------------------------------- *)
(** ** step-definitions: the two add-to-cart steps *)

(** The Cucumber world object [this]; [dialogPromise] is [undefined] until
    the first step assigns it. *)
Record ScenarioWorld := {
  dialogPromise : option Dialog
}.

(** [When('I add the product to cart')]:
    [this.dialogPromise = await addProductToCart(page)]. *)
Definition step_add_to_cart (pg : Page) (this : ScenarioWorld) : M ScenarioWorld :=
  d <- addProductToCart pg ;;
  ret {| dialogPromise := Some d |}.

(** [Then('a success message should appear')]:
    [await verifyAddToCartSuccess(page, this.dialogPromise)].
    Awaiting [undefined] yields [undefined], whose [message] cannot be read. *)
Definition step_success_message (pg : Page) (this : ScenarioWorld) : M ScenarioWorld :=
  verifyAddToCartSuccess pg
    (match dialogPromise this with
     | Some d => ret d
     | None => throw "Cannot read properties of undefined (reading 'message')"
     end) ;;
  ret this.

(** Cucumber runs the steps of a scenario in order; once a step has failed
    the remaining steps are not executed and are reported as skipped. A step
    fails when its function throws, and also when a promise rejection is
    reported as unhandled while it runs: the runner then fails the running
    step with the reason of that rejection. *)
Inductive StepStatus :=
| Passed
| Failed (msg : string)
| Skipped.

Definition Step : Type := ScenarioWorld -> M ScenarioWorld.

Fixpoint skipAll (steps : list (string * Step)) : list (string * StepStatus) :=
  match steps with
  | [] => []
  | (name, _) :: rest => (name, Skipped) :: skipAll rest
  end.

(** The events recorded between two worlds, oldest first. *)
Definition raised_since (before after : World) : list Event :=
  rev (firstn (List.length (trace after) - List.length (trace before)) (trace after)).

(** The reason of the first unhandled rejection among the events. *)
Fixpoint unhandled_rejection (events : list Event) : option string :=
  match events with
  | [] => None
  | EvUnhandledRejection reason :: _ => Some reason
  | _ :: rest => unhandled_rejection rest
  end.

Fixpoint runScenario (steps : list (string * Step)) (this : ScenarioWorld) (w : World)
  : list (string * StepStatus) * World :=
  match steps with
  | [] => ([], w)
  | (name, step) :: rest =>
      match step this w with
      | (r, w') =>
          match unhandled_rejection (raised_since w w'), r with
          | Some reason, _ => ((name, Failed reason) :: skipAll rest, w')
          | None, Ok this' =>
              let (statuses, w'') := runScenario rest this' w' in
              ((name, Passed) :: statuses, w'')
          | None, Err msg => ((name, Failed msg) :: skipAll rest, w')
          end
      end
  end.

Definition addToCartSteps (pg : Page) : list (string * Step) :=
  [ ("I add the product to cart", step_add_to_cart pg);
    ("a success message should appear", step_success_message pg) ].

End Helpers.

(* ------------------------------------------------------------------- *)
(** ** helpers/checkout.ts *)

(** [CheckoutData] of [fixtures/test-data.ts]. *)
Record CheckoutData := {
  cd_name : string;
  cd_country : string;
  cd_city : string;
  cd_creditCard : string;
  cd_month : string;
  cd_year : string
}.

(** [/\d+/.test(s)]: some character of [s] is a decimal digit. *)
Fixpoint hasDigit (s : string) : bool :=
  match s with
  | EmptyString => false
  | String c s' =>
      let n := nat_of_ascii c in
      ((48 <=? n)%nat && (n <=? 57)%nat) || hasDigit s'
  end.

Section Checkout.

Variable env : Env.
(** [String.prototype.toLowerCase], [String.prototype.trim], [s.length] and
    [s.substring(from, to)]. *)
Variable toLowerCase : string -> string.
Variable trim : string -> string.
Variable length16 : string -> Z.
Variable substring16 : string -> Z -> Z -> string.
(** The timeout a Playwright call uses when its options are omitted. *)
Variable defaultTimeout : Z.

Definition fillCheckoutForm (pg : Page) (checkoutData : CheckoutData)
    (expectedProductName : option string) : M unit :=
  try_catch
    (navigateToCart env pg ;;
     clickElement env (SELECTORS.PLACE_ORDER_BUTTON pg) (Some "Click place order button")
                  TIMEOUTS.MEDIUM ;;
     fillInput env (SELECTORS.ORDER_NAME_INPUT pg) (cd_name checkoutData)
               (Some "Name") TIMEOUTS.MEDIUM ;;
     fillInput env (SELECTORS.ORDER_COUNTRY_INPUT pg) (cd_country checkoutData)
               (Some "Country") TIMEOUTS.MEDIUM ;;
     fillInput env (SELECTORS.ORDER_CITY_INPUT pg) (cd_city checkoutData)
               (Some "City") TIMEOUTS.MEDIUM ;;
     fillInput env (SELECTORS.ORDER_CARD_INPUT pg) (cd_creditCard checkoutData)
               (Some "Credit Card") TIMEOUTS.MEDIUM ;;
     fillInput env (SELECTORS.ORDER_MONTH_INPUT pg) (cd_month checkoutData)
               (Some "Month") TIMEOUTS.MEDIUM ;;
     fillInput env (SELECTORS.ORDER_YEAR_INPUT pg) (cd_year checkoutData)
               (Some "Year") TIMEOUTS.MEDIUM ;;
     console_log "✓ Checkout form filled successfully")
    (fun errorMessage =>
       throw ("Checkout form filling failed: " ++ errorMessage ++ ". " ++
              "Please verify cart has items and all checkout form fields are filled correctly.")).

Definition verifyOrderMessageContent (pg : Page) : M unit :=
  try_catch
    (let orderDetails := SELECTORS.SWEET_ALERT_MESSAGE pg in
     messageText <- locator_textContent_ env orderDetails defaultTimeout ;;
     match messageText with
     | None => throw "Order confirmation message is empty"
     | Some messageText =>
         if (messageText =? "")%string || (length16 (trim messageText) =? 0)
         then throw "Order confirmation message is empty"
         else
           let messageLower := toLowerCase messageText in
           let hasAmount := includes messageLower "amount" || includes messageLower "$" ||
                            hasDigit messageText in
           let hasOrderInfo := includes messageLower "id" || includes messageLower "card" ||
                               includes messageLower "number" in
           (if negb hasAmount && negb hasOrderInfo
            then if length16 (trim messageText) <? 10
                 then throw ("Order confirmation message appears incomplete: " ++ dq ++
                             messageText ++ dq)
                 else ret tt
            else ret tt) ;;
           console_log ("✓ Order confirmation message content verified: " ++ dq ++
                        substring16 messageText 0 50 ++ "..." ++ dq)
     end)
    (fun errorMessage =>
       throw ("Order message content verification failed: " ++ errorMessage ++ ". " ++
              "The order confirmation message may be missing or incomplete.")).

End Checkout.

(* ===================================================================== *)
(** * Vocabulary of the statements *)
(* ===================================================================== *)

Inductive Link := LBrowser | LContext | LPage.

(** The links of the chain a trace creates, in the order of the trace. *)
Fixpoint created (events : list Event) : list Link :=
  match events with
  | [] => []
  | EvLaunch _ _ :: rest => LBrowser :: created rest
  | EvNewContext _ _ :: rest => LContext :: created rest
  | EvNewPage _ :: rest => LPage :: created rest
  | _ :: rest => created rest
  end.

(** The links a world lacks, parent first. *)
Definition missing (w : World) : list Link :=
  (match browser w with Some _ => [] | None => [LBrowser] end) ++
  (match context w with Some _ => [] | None => [LContext] end) ++
  (match page w with Some _ => [] | None => [LPage] end).

Definition is_teardown (e : Event) : bool :=
  match e with
  | EvClosePage _ | EvCloseContext _ | EvCloseBrowser _ => true
  | _ => false
  end.

(** The teardown calls of a trace, in the order of the trace. *)
Definition teardowns (events : list Event) : list Event := filter is_teardown events.

(** The teardown calls a world asks for: one per handle that is set, page
    first, then context, then browser. *)
Definition teardown_plan (w : World) : list Event :=
  (match page w with Some p => [EvClosePage p] | None => [] end) ++
  (match context w with Some c => [EvCloseContext c] | None => [] end) ++
  (match browser w with Some b => [EvCloseBrowser b] | None => [] end).

(** The answer of the environment to a teardown call. *)
Definition teardown_outcome (env : Env) (h : History) (e : Event) : result unit :=
  match e with
  | EvClosePage p => page_close env h p
  | EvCloseContext c => context_close env h c
  | EvCloseBrowser b => browser_close env h b
  | _ => Ok tt
  end.

Definition closed (w : World) : Prop :=
  browser w = None /\ context w = None /\ page w = None.

Definition creation_succeeds (env : Env) : Prop :=
  (forall h l o, exists b, launch env h l o = Ok b) /\
  (forall h b o, exists c, newContext env h b o = Ok c) /\
  (forall h c, exists p, newPage env h c = Ok p).

Definition teardown_succeeds (env : Env) : Prop :=
  (forall h p, page_close env h p = Ok tt) /\
  (forall h c, context_close env h c = Ok tt) /\
  (forall h b, browser_close env h b = Ok tt).

(* ===================================================================== *)
(** * Concrete environments *)
(* ===================================================================== *)

Definition no_dialog : result Dialog :=
  Err "page.waitForEvent: Timeout 10000ms exceeded while waiting for event dialog".

(** An environment in which every action succeeds; a created handle is
    numbered by the length of the history. The closing of the page, the
    dialog wait, the accepting of a dialog, the text of an element, the
    count of a locator and the arriving responses are given. *)
Definition scripted (closePage : result unit) (dialog : result Dialog)
    (acceptance : result unit) (text : option string) (count : Z)
    (arriving : list Response) : Env :=
  {| launch := fun h _ _ => Ok (BrowserHandle (List.length h));
     newContext := fun h _ _ => Ok (ContextHandle (List.length h));
     newPage := fun h _ => Ok (PageHandle (List.length h));
     page_close := fun _ _ => closePage;
     context_close := fun _ _ => Ok tt;
     browser_close := fun _ _ => Ok tt;
     locator_click := fun _ _ _ => Ok tt;
     locator_fill := fun _ _ _ _ => Ok tt;
     expect_toBeVisible := fun _ _ _ => Ok tt;
     locator_waitFor_visible := fun _ _ _ => Ok tt;
     locator_textContent := fun _ _ _ => Ok text;
     locator_count := fun _ _ => Ok count;
     dialog_event := fun _ _ _ => dialog;
     dialog_accept := fun _ _ => acceptance;
     responses := fun _ _ _ => arriving;
     waitForResponse_timeout := fun _ _ timeout =>
       "page.waitForResponse: Timeout " ++ show timeout ++ "ms exceeded while waiting for event response";
     toBeGreaterThanOrEqual_message := fun received expected =>
       "expect(received).toBeGreaterThanOrEqual(expected) Expected: >= " ++ show expected ++
       " Received: " ++ show received;
     toEqual_message := fun received expected =>
       "expect(received).toEqual(expected) Expected: " ++ show expected ++
       " Received: " ++ show received |}.

Definition calm : Env := scripted (Ok tt) no_dialog (Ok tt) (Some "Samsung galaxy s6") 1 [].

Definition config0 : TestConfig :=
  {| cfg_browser_headless := false;
     cfg_browser_channel := "chromium";
     cfg_browser_timeout := 60000;
     cfg_videos_enabled := false;
     cfg_videos_path := "test-results/videos" |}.

Definition unstarted : World :=
  {| browser := None; context := None; page := None; trace := [] |}.

Definition page_ready : World :=
  {| browser := Some (BrowserHandle 0);
     context := Some (ContextHandle 2);
     page := Some (PageHandle 4);
     trace := [] |}.

Definition page0 : Page := PageHandle 4.

(** The handle a teardown call closes is still held by the world. *)
Definition holds (w : World) (e : Event) : Prop :=
  match e with
  | EvClosePage p => page w = Some p
  | EvCloseContext c => context w = Some c
  | EvCloseBrowser b => browser w = Some b
  | _ => True
  end.

(** The reading of "each teardown step is attempted even if a prior one
    threw": every call of the plan is in the trace after [cleanupBrowser]. *)
Definition attempts_every_step (env : Env) (w : World) : Prop :=
  forall e, In e (teardown_plan w) -> In e (trace (snd (cleanupBrowser env w))).

Definition page_close_throws : Env :=
  scripted (Err "page.close: Target page, context or browser has been closed")
           no_dialog (Ok tt) None 0 [].

(** The product collection of a body, in the words of the specification:
    the body itself if it is a sequence; otherwise the first sequence-valued
    top-level field of the body. *)
Inductive ProductsOf : json -> list json -> Prop :=
| ProductsOf_array (items : list json) :
    ProductsOf (JArray items) items
| ProductsOf_field (before after : list (string * json)) (key : string)
    (items : list json) :
    Forall (fun kv => isArray (snd kv) = false) before ->
    ProductsOf (JObject (before ++ (key, JArray items) :: after)) items.

(** [{status: "ok", items: [{}, {}]}] *)
Definition wrapped_body : json :=
  JObject [("status", JString "ok"); ("items", JArray [JObject []; JObject []])].

(** An array of [n] empty objects. *)
Definition empty_objects (n : nat) : json := JArray (repeat (JObject []) n).

(** The first element of a non-empty collection is an object (or an array),
    as the structure check asks. *)
Definition first_is_object (items : list json) : Prop :=
  match items with
  | first :: _ => notAnObject first = false
  | [] => True
  end.

Definition entries_response (status : Z) : Response :=
  {| resp_url := "https://api.demoblaze.com/entries";
     resp_status := status;
     resp_content_type := Some "application/json";
     resp_json := Ok (empty_objects 9) |}.

(** No response arriving on the page satisfies the predicate. *)
Definition none_matches (env : Env) (pg : Page) (endpoint : string) (expectedStatus : Z)
    (w : World) : Prop :=
  Forall (fun r => responseMatches endpoint expectedStatus r = false)
         (responses env (trace w) pg TIMEOUTS.LONG).

Definition is_accept (e : Event) : bool :=
  match e with
  | EvAccept _ => true
  | _ => false
  end.

(** The [dialog.accept()] calls of a trace. *)
Definition accept_calls (events : list Event) : list Event := filter is_accept events.

(** Clicks, fills and visibility checks succeed. *)
Definition actions_succeed (env : Env) : Prop :=
  (forall h l t, locator_click env h l t = Ok tt) /\
  (forall h l v t, locator_fill env h l v t = Ok tt) /\
  (forall h l t, expect_toBeVisible env h l t = Ok tt).

(** The dialog [d] is raised on the page within the timeout. *)
Definition dialog_fires (env : Env) (pg : Page) (d : Dialog) : Prop :=
  forall h t, dialog_event env h pg t = Ok d.

Definition no_dialog_fires (env : Env) (pg : Page) : Prop :=
  forall h t, exists msg, dialog_event env h pg t = Err msg.

Definition credentials0 : LoginCredentials :=
  {| username := "test"; password := "test" |}.

Definition timeout_message : string :=
  "page.waitForEvent: Timeout 10000ms exceeded while waiting for event dialog".

Definition captcha : Dialog :=
  {| dialog_id := 1; dialog_message := "Please solve the captcha." |}.

Definition sold_out : Dialog :=
  {| dialog_id := 2; dialog_message := "Sorry, out of stock." |}.

(** The element is visible and its text is three spaces. *)
Definition blank_text : Env := scripted (Ok tt) no_dialog (Ok tt) (Some "   ") 0 [].

(** A dialog is raised and accepting it succeeds. *)
Definition raises (d : Dialog) : Env := scripted (Ok tt) (Ok d) (Ok tt) None 0 [].

(** The cart shows [count] rows. *)
Definition cart_rows (count : Z) : Env := scripted (Ok tt) no_dialog (Ok tt) None count [].

(** The options [initializeBrowser] passes to [launcher.launch] and to
    [browser.newContext]. *)
Definition launch_options (cfg : TestConfig) : LaunchOptions :=
  {| lo_headless := cfg_browser_headless cfg;
     lo_args := ["--start-maximized"];
     lo_timeout := cfg_browser_timeout cfg |}.

Definition context_options (cfg : TestConfig) : ContextOptions :=
  {| co_recordVideo :=
       if cfg_videos_enabled cfg then Some (cfg_videos_path cfg) else None |}.

(** The chain is nested: a page only with its context, a context only with
    its browser. *)
Definition nested (w : World) : Prop :=
  (page w <> None -> context w <> None) /\
  (context w <> None -> browser w <> None).

(** The error, if any, with which the environment answers a creation call. *)
Definition creation_error (env : Env) (h : History) (e : Event) : option string :=
  match e with
  | EvLaunch l o => match launch env h l o with Err msg => Some msg | Ok _ => None end
  | EvNewContext b o => match newContext env h b o with Err msg => Some msg | Ok _ => None end
  | EvNewPage c => match newPage env h c with Err msg => Some msg | Ok _ => None end
  | _ => None
  end.

(** The calls into Playwright of a trace, without the log lines. *)
Definition is_call (e : Event) : bool :=
  match e with
  | EvLogger _ _ _ | EvConsole _ _ | EvUnhandledRejection _ => false
  | _ => true
  end.

Definition calls (events : list Event) : list Event := filter is_call events.

Definition is_fill (e : Event) : bool :=
  match e with
  | EvFill _ _ _ => true
  | _ => false
  end.

Definition fills (events : list Event) : list Event := filter is_fill events.

(** The six fills of the order form, in the order of the source. *)
Definition order_form_fills (pg : Page) (data : CheckoutData) : list Event :=
  [ EvFill (SELECTORS.ORDER_NAME_INPUT pg) (cd_name data) TIMEOUTS.MEDIUM;
    EvFill (SELECTORS.ORDER_COUNTRY_INPUT pg) (cd_country data) TIMEOUTS.MEDIUM;
    EvFill (SELECTORS.ORDER_CITY_INPUT pg) (cd_city data) TIMEOUTS.MEDIUM;
    EvFill (SELECTORS.ORDER_CARD_INPUT pg) (cd_creditCard data) TIMEOUTS.MEDIUM;
    EvFill (SELECTORS.ORDER_MONTH_INPUT pg) (cd_month data) TIMEOUTS.MEDIUM;
    EvFill (SELECTORS.ORDER_YEAR_INPUT pg) (cd_year data) TIMEOUTS.MEDIUM ].

Definition CHECKOUT_DATA : CheckoutData :=
  {| cd_name := "John Doe";
     cd_country := "United States";
     cd_city := "New York";
     cd_creditCard := "1234567890123456";
     cd_month := "12";
     cd_year := "2025" |}.

(** The number of characters of an ASCII string, for concrete runs. *)
Definition ascii_length (s : string) : Z := Z.of_nat (String.length s).

Definition ascii_substring (s : string) (from to : Z) : string :=
  String.substring (Z.to_nat from) (Z.to_nat (to - from)) s.

(** The context closes with an error after the page has closed. *)
Definition context_close_throws : Env :=
  {| launch := fun h _ _ => Ok (BrowserHandle (List.length h));
     newContext := fun h _ _ => Ok (ContextHandle (List.length h));
     newPage := fun h _ => Ok (PageHandle (List.length h));
     page_close := fun _ _ => Ok tt;
     context_close := fun _ _ => Err "browserContext.close: Target closed";
     browser_close := fun _ _ => Ok tt;
     locator_click := fun _ _ _ => Ok tt;
     locator_fill := fun _ _ _ _ => Ok tt;
     expect_toBeVisible := fun _ _ _ => Ok tt;
     locator_waitFor_visible := fun _ _ _ => Ok tt;
     locator_textContent := fun _ _ _ => Ok None;
     locator_count := fun _ _ => Ok 0;
     dialog_event := fun _ _ _ => no_dialog;
     dialog_accept := fun _ _ => Ok tt;
     responses := fun _ _ _ => [];
     waitForResponse_timeout := fun _ _ _ => "page.waitForResponse: Timeout exceeded";
     toBeGreaterThanOrEqual_message := fun _ _ => "expect(received).toBeGreaterThanOrEqual(expected)";
     toEqual_message := fun _ _ => "expect(received).toEqual(expected)" |}.

(** The browser cannot be launched. *)
Definition launch_throws : Env :=
  {| launch := fun _ _ _ => Err "browserType.launch: Executable does not exist";
     newContext := fun h _ _ => Ok (ContextHandle (List.length h));
     newPage := fun h _ => Ok (PageHandle (List.length h));
     page_close := fun _ _ => Ok tt;
     context_close := fun _ _ => Ok tt;
     browser_close := fun _ _ => Ok tt;
     locator_click := fun _ _ _ => Ok tt;
     locator_fill := fun _ _ _ _ => Ok tt;
     expect_toBeVisible := fun _ _ _ => Ok tt;
     locator_waitFor_visible := fun _ _ _ => Ok tt;
     locator_textContent := fun _ _ _ => Ok None;
     locator_count := fun _ _ => Ok 0;
     dialog_event := fun _ _ _ => no_dialog;
     dialog_accept := fun _ _ => Ok tt;
     responses := fun _ _ _ => [];
     waitForResponse_timeout := fun _ _ _ => "page.waitForResponse: Timeout exceeded";
     toBeGreaterThanOrEqual_message := fun _ _ => "expect(received).toBeGreaterThanOrEqual(expected)";
     toEqual_message := fun _ _ => "expect(received).toEqual(expected)" |}.


(** A response to [/entries] labelled as HTML whose body is JSON. *)
Definition mislabelled_response : Response :=
  {| resp_url := "https://api.demoblaze.com/entries";
     resp_status := 200;
     resp_content_type := Some "text/html";
     resp_json := Ok (empty_objects 9) |}.

Definition added : Dialog :=
  {| dialog_id := 3; dialog_message := "Product added." |}.

(** The order message reads [text]. *)
Definition order_message (text : string) : Env :=
  scripted (Ok tt) no_dialog (Ok tt) (Some text) 0 [].

(* ===================================================================== *)
(** * Strings *)
(* ===================================================================== *)

Lemma startsWith_app (sub rest : string) : startsWith (sub ++ rest) sub = true.
Proof.
  induction sub as [|c sub IH]; simpl.
  - reflexivity.
  - rewrite Ascii.eqb_refl. exact IH.
Qed.

Lemma startsWith_split (s sub : string) :
  startsWith s sub = true -> exists rest, s = sub ++ rest.
Proof.
  revert s. induction sub as [|c sub IH]; intros s H.
  - exists s. reflexivity.
  - destruct s as [|d s]; simpl in H; [discriminate|].
    apply andb_true_iff in H. destruct H as [Hc Hs].
    apply Ascii.eqb_eq in Hc. subst d.
    destruct (IH s Hs) as [rest ->]. exists rest. reflexivity.
Qed.

Lemma includes_startsWith (s sub : string) :
  startsWith s sub = true -> includes s sub = true.
Proof.
  intros H. destruct s; simpl; rewrite H; reflexivity.
Qed.

Lemma includes_app (before sub after : string) :
  includes (before ++ sub ++ after) sub = true.
Proof.
  induction before as [|c before IH]; simpl.
  - apply includes_startsWith, startsWith_app.
  - rewrite IH. apply orb_true_r.
Qed.

Lemma includes_split (s sub : string) :
  includes s sub = true -> exists before after, s = before ++ sub ++ after.
Proof.
  induction s as [|c s IH]; simpl; intros H.
  - rewrite orb_false_r in H. destruct (startsWith_split _ _ H) as [rest ->].
    exists "", rest. reflexivity.
  - apply orb_true_iff in H. destruct H as [H|H].
    + destruct (startsWith_split _ _ H) as [rest ->].
      exists "", rest. reflexivity.
    + destruct (IH H) as (before & after & ->).
      exists (String c before), after. reflexivity.
Qed.

(** [includes] is substring occurrence. *)
Lemma includes_iff (s sub : string) :
  includes s sub = true <-> exists before after, s = before ++ sub ++ after.
Proof.
  split.
  - apply includes_split.
  - intros (before & after & ->). apply includes_app.
Qed.

Lemma append_assoc (a b c : string) : (a ++ b) ++ c = a ++ b ++ c.
Proof.
  induction a as [|x a IH]; simpl; [reflexivity|].
  rewrite IH. reflexivity.
Qed.

Lemma includes_prefix (sub after : string) : includes (sub ++ after) sub = true.
Proof. exact (includes_app "" sub after). Qed.

Lemma includes_middle (a b c sub : string) :
  includes b sub = true -> includes (a ++ b ++ c) sub = true.
Proof.
  intros H. destruct (includes_split _ _ H) as (x & y & ->).
  replace (a ++ (x ++ sub ++ y) ++ c) with ((a ++ x) ++ sub ++ (y ++ c)).
  - apply includes_app.
  - rewrite !append_assoc. reflexivity.
Qed.

(* ===================================================================== *)
(** * helpers/browser-setup: the singleton chain *)
(* ===================================================================== *)

Ltac unfold_js :=
  unfold try_catch, bind, ret, throw, call, emit, await, catch_null, abandon,
    logger_info, logger_debug, logger_error, console_log, console_warn,
    get_browser, get_context, get_page, set_browser, set_context, set_page,
    deref, record in *.

(** Runs the monadic plumbing as far as the next answer of the environment. *)
Ltac run_js :=
  cbv beta iota zeta delta
    [try_catch bind ret throw call emit await catch_null abandon
     logger_info logger_debug logger_error console_log console_warn
     get_browser get_context get_page set_browser set_context set_page
     deref record fst snd];
  cbn [browser context page trace truthy or_else negb String.eqb Ascii.eqb Bool.eqb].

Lemma trace_nil (t : History) : t = ([] ++ t)%list.
Proof. reflexivity. Qed.

Lemma trace_cons (e : Event) (l new t : History) :
  l = (new ++ t)%list -> e :: l = ((e :: new) ++ t)%list.
Proof. intros ->. reflexivity. Qed.

(** Splits a trace [e1 :: ... :: en :: t] into its new part and [t]. *)
Ltac trace_split := simpl; repeat first [ apply trace_nil | eapply trace_cons ].

(** On a world whose three handles are set, [initializeBrowser] makes no
    call and returns the page it holds, whatever the environment. *)
Lemma initializeBrowser_page_ready (env : Env) (cfg : TestConfig) (w : World) b c p :
  browser w = Some b -> context w = Some c -> page w = Some p ->
  initializeBrowser env cfg w = (Ok p, w).
Proof.
  destruct w as [b0 c0 p0 t]; simpl. intros -> -> ->. reflexivity.
Qed.

(** On a world whose three handles are [null], [cleanupBrowser] makes no
    call, whatever the environment. *)
Lemma cleanupBrowser_closed (env : Env) (w : World) :
  closed w -> cleanupBrowser env w = (Ok tt, w).
Proof.
  destruct w as [b0 c0 p0 t]. intros (Hb & Hc & Hp); simpl in *; subst.
  reflexivity.
Qed.

(** Where no teardown call throws, [cleanupBrowser] leaves the three handles
    [null]. *)
Lemma cleanupBrowser_closes (env : Env) (w : World) :
  teardown_succeeds env -> closed (snd (cleanupBrowser env w)).
Proof.
  intros (Hp & Hc & Hb). destruct w as [[b|] [c|] [p|] t];
    unfold cleanupBrowser; unfold_js; simpl;
    rewrite ?Hp; simpl; rewrite ?Hc; simpl; rewrite ?Hb; simpl; repeat split.
Qed.

Ltac at_position L k :=
  exists (firstn k L), (skipn (S k) L); split; [reflexivity | simpl; assumption].

(** Finds the position of a call in a concrete timeline and checks the answer
    of the environment recorded for it. *)
Ltac locate_call :=
  simpl;
  lazymatch goal with
  | |- exists before after, ?L = (before ++ _ :: after)%list /\ _ =>
      first [ at_position L 0%nat | at_position L 1%nat | at_position L 2%nat
            | at_position L 3%nat | at_position L 4%nat | at_position L 5%nat ]
  end.

(** C1. In an environment whose creation and teardown calls succeed, from any
    state of the browser/context/page chain [initializeBrowser] returns the
    page handle, and the chain it leaves is made of the handles that were
    set and, for each missing link, of the handle the creation call answered:
    the browser is what [launch] answered, the context what [newContext]
    answered on that browser, the page what [newPage] answered on that
    context. The calls into Playwright are exactly the creation calls of the
    missing links, parent first, each on its parent. Called again it returns
    the same handle and changes nothing (no call is made, whatever the
    environment). [cleanupBrowser] then leaves the three handles [null], and
    a [cleanupBrowser] on a world whose three handles are [null] makes no
    call and changes nothing. *)
Theorem lifecycle_idempotent (env : Env) (cfg : TestConfig) (w : World) :
  creation_succeeds env ->
  teardown_succeeds env ->
  exists p w1 new b1 c1,
    initializeBrowser env cfg w = (Ok p, w1) /\
    trace w1 = (new ++ trace w)%list /\
    created (rev new) = missing w /\
    browser w1 = Some b1 /\ context w1 = Some c1 /\ page w1 = Some p /\
    calls (rev new) =
      ((match browser w with
        | Some _ => []
        | None => [EvLaunch (getBrowserLauncher cfg) (launch_options cfg)]
        end) ++
       (match context w with
        | Some _ => []
        | None => [EvNewContext b1 (context_options cfg)]
        end) ++
       (match page w with
        | Some _ => []
        | None => [EvNewPage c1]
        end))%list /\
    match browser w with
    | Some b0 => b1 = b0
    | None => launch env (trace w) (getBrowserLauncher cfg) (launch_options cfg) = Ok b1
    end /\
    match context w with
    | Some c0 => c1 = c0
    | None =>
        exists before after,
          rev new = (before ++ EvNewContext b1 (context_options cfg) :: after)%list /\
          newContext env (rev before ++ trace w)%list b1 (context_options cfg) = Ok c1
    end /\
    match page w with
    | Some p0 => p = p0
    | None =>
        exists before after,
          rev new = (before ++ EvNewPage c1 :: after)%list /\
          newPage env (rev before ++ trace w)%list c1 = Ok p
    end /\
    (forall p0, page w = Some p0 -> p = p0) /\
    (forall b0, browser w = Some b0 -> browser w1 = Some b0) /\
    (forall c0, context w = Some c0 -> context w1 = Some c0) /\
    (forall env' cfg', initializeBrowser env' cfg' w1 = (Ok p, w1)) /\
    (let w2 := snd (cleanupBrowser env w1) in
     closed w2 /\ forall env', cleanupBrowser env' w2 = (Ok tt, w2)) /\
    (forall env' w0, closed w0 -> cleanupBrowser env' w0 = (Ok tt, w0)).
Proof.
  intros (Hl & Hc & Hp) Hdown.
  unfold launch_options, context_options.
  destruct w as [[b|] [c|] [p|] t]; unfold initializeBrowser; unfold_js; simpl.
  all: repeat match goal with
       | |- context [launch _ ?h ?l ?o] =>
           let b' := fresh "b'" in let E := fresh "E" in
           destruct (Hl h l o) as [b' E]; rewrite E; simpl
       | |- context [newContext _ ?h ?b ?o] =>
           let c' := fresh "c'" in let E := fresh "E" in
           destruct (Hc h b o) as [c' E]; rewrite E; simpl
       | |- context [newPage _ ?h ?c] =>
           let p' := fresh "p'" in let E := fresh "E" in
           destruct (Hp h c) as [p' E]; rewrite E; simpl
       end.
  all: do 5 eexists; split; [reflexivity|]; split; [trace_split|]; simpl.
  all: split; [reflexivity|].
  all: do 3 (split; [reflexivity|]).
  all: split; [reflexivity|].
  all: split; [first [reflexivity | assumption]|].
  all: split; [first [reflexivity | locate_call]|].
  all: split; [first [reflexivity | locate_call]|].
  all: repeat match goal with |- _ /\ _ => split end;
       try reflexivity; try congruence; try discriminate.
  all: try (intros env' cfg'; eapply initializeBrowser_page_ready; reflexivity).
  all: try (apply cleanupBrowser_closes; assumption).
  all: try (intros env'; apply cleanupBrowser_closed, cleanupBrowser_closes; assumption).
  all: intros env' w0 Hw0; apply cleanupBrowser_closed; assumption.
Qed.

Lemma lifecycle_idempotent_witness :
  creation_succeeds calm /\ teardown_succeeds calm /\
  exists w1 new,
    initializeBrowser calm config0 unstarted = (Ok (PageHandle 4), w1) /\
    browser w1 = Some (BrowserHandle 0) /\
    context w1 = Some (ContextHandle 2) /\
    page w1 = Some (PageHandle 4) /\
    trace w1 = (new ++ [])%list /\
    calls (rev new) =
      [ EvLaunch chromium (launch_options config0);
        EvNewContext (BrowserHandle 0) (context_options config0);
        EvNewPage (ContextHandle 2) ] /\
    initializeBrowser calm config0 w1 = (Ok (PageHandle 4), w1) /\
    closed (snd (cleanupBrowser calm w1)).
Proof.
  assert (Hup : creation_succeeds calm).
  { repeat split; intros; eexists; reflexivity. }
  assert (Hdown : teardown_succeeds calm).
  { repeat split. }
  split; [exact Hup|]. split; [exact Hdown|].
  destruct (lifecycle_idempotent calm config0 unstarted Hup Hdown)
    as (p & w1 & new & b1 & c1 & Hrun & Htrace & _ & Hb & Hc & Hpg & Hcalls
        & Hlaunch & Hcontext & Hpage & _ & _ & _ & Hagain & Hrelease & _).
  simpl in Hlaunch. injection Hlaunch as <-.
  destruct Hcontext as (before & after & Hat & Hctx). cbn in Hctx.
  destruct Hpage as (before' & after' & Hat' & Hnew). cbn in Hnew.
  assert (Hvalue : initializeBrowser calm config0 unstarted =
                   (Ok (PageHandle 4),
                    snd (initializeBrowser calm config0 unstarted))) by reflexivity.
  rewrite Hrun in Hvalue. cbn [snd] in Hvalue. injection Hvalue as ->.
  assert (Hw1 : w1 = snd (initializeBrowser calm config0 unstarted))
    by (rewrite Hrun; reflexivity).
  assert (Hc1 : c1 = ContextHandle 2).
  { rewrite Hw1 in Hc. cbv in Hc. injection Hc as <-. reflexivity. }
  subst c1.
  exists w1, new. split; [exact Hrun|].
  split; [exact Hb|]. split; [exact Hc|]. split; [exact Hpg|].
  split; [exact Htrace|]. split; [exact Hcalls|].
  split; [apply Hagain|apply Hrelease].
Defined.

(** C2, as stated, fails: when [page.close()] throws, the single [try] block
    is left at once; [context.close()] and [browser.close()] are not called
    and the three handles stay set. *)
Lemma cleanupBrowser_skips_after_failure :
  cleanupBrowser page_close_throws page_ready =
    (Ok tt,
     {| browser := Some (BrowserHandle 0);
        context := Some (ContextHandle 2);
        page := Some (PageHandle 4);
        trace := [EvLogger LvError "Error during browser cleanup"
                    (MetaError "page.close: Target page, context or browser has been closed");
                  EvClosePage (PageHandle 4)] |}) /\
  ~ attempts_every_step page_close_throws page_ready.
Proof.
  split; [reflexivity|].
  intros H. specialize (H (EvCloseContext (ContextHandle 2))).
  simpl in H. destruct H as [H|[H|H]]; auto; discriminate.
Qed.

Ltac split_at_each_position H :=
  repeat match type of H with
    | _ = (?before ++ _ :: _)%list =>
        destruct before as [|? before]; simpl in H;
        [ injection H as <- <- | injection H as <- H ]
    end.

(** C2, amended. [cleanupBrowser] never throws. Its teardown calls are an
    initial part of: close the page, close the context, close the browser
    (each only if its handle is set). A teardown call that throws is the last
    call made: the error is logged, nothing after it is attempted, and its
    handle stays set. A handle of the plan that was not reached stays set.
    Where no teardown call throws the whole plan is carried out and the three
    handles end [null]. *)
Theorem cleanupBrowser_best_effort (env : Env) (w : World) :
  exists w' new,
    cleanupBrowser env w = (Ok tt, w') /\
    trace w' = (new ++ trace w)%list /\
    (exists k, teardowns (rev new) = firstn k (teardown_plan w)) /\
    (forall before e after msg,
        rev new = (before ++ e :: after)%list ->
        is_teardown e = true ->
        teardown_outcome env (rev before ++ trace w)%list e = Err msg ->
        after = [EvLogger LvError "Error during browser cleanup" (MetaError msg)] /\
        holds w' e) /\
    (forall e, In e (teardown_plan w) -> In e (rev new) \/ holds w' e) /\
    (teardown_succeeds env -> teardowns (rev new) = teardown_plan w /\ closed w').
Proof.
  destruct w as [[b|] [c|] [p|] t]; unfold cleanupBrowser; unfold_js; simpl.
  all: repeat match goal with
       | |- context [page_close ?e ?h ?p] =>
           let E := fresh "E" in destruct (page_close e h p) as [[]|?] eqn:E; simpl
       | |- context [context_close ?e ?h ?c] =>
           let E := fresh "E" in destruct (context_close e h c) as [[]|?] eqn:E; simpl
       | |- context [browser_close ?e ?h ?b] =>
           let E := fresh "E" in destruct (browser_close e h b) as [[]|?] eqn:E; simpl
       end.
  all: do 2 eexists; split; [reflexivity|]; split; [trace_split|]; simpl.
  all: split;
       [ first [ exists 0%nat; reflexivity | exists 1%nat; reflexivity
               | exists 2%nat; reflexivity | exists 3%nat; reflexivity ] |].
  all: split;
       [ intros before e after thrown Hsplit Htd Hout;
         split_at_each_position Hsplit;
         simpl in *; try discriminate; try congruence;
         try (destruct before; discriminate);
         try (split; [congruence | reflexivity])
       |].
  all: split;
       [ intros e He; simpl in He; intuition (subst; simpl; auto) |].
  all: intros (Hp & Hc & Hb); rewrite ?Hp, ?Hc, ?Hb in *;
       try discriminate; repeat split.
Qed.

Lemma cleanupBrowser_best_effort_witness :
  teardown_succeeds calm /\
  exists w' new,
    cleanupBrowser calm page_ready = (Ok tt, w') /\
    trace w' = (new ++ [])%list /\
    teardowns (rev new) =
      [EvClosePage (PageHandle 4); EvCloseContext (ContextHandle 2);
       EvCloseBrowser (BrowserHandle 0)] /\
    closed w'.
Proof.
  assert (Hdown : teardown_succeeds calm) by (repeat split).
  split; [exact Hdown|].
  destruct (cleanupBrowser_best_effort calm page_ready)
    as (w' & new & Hrun & Htrace & _ & _ & _ & Hall).
  exists w', new. destruct (Hall Hdown) as [Hplan Hclosed].
  repeat split; try assumption; apply Hclosed.
Defined.

(* ===================================================================== *)
(** * utils/api-helper *)
(* ===================================================================== *)

(** [find] returns the first element on which the predicate is true. *)
Lemma find_first {A} (f : A -> bool) (l : list A) (x : A) :
  find f l = Some x <->
  exists before after,
    l = (before ++ x :: after)%list /\
    Forall (fun y => f y = false) before /\ f x = true.
Proof.
  split.
  - induction l as [|y l IH]; simpl; [discriminate|].
    destruct (f y) eqn:Fy.
    + intros [= ->]. exists [], l. repeat split; auto.
    + intros H. destruct (IH H) as (before & after & -> & Hb & Hx).
      exists (y :: before), after. repeat split; auto.
  - intros (before & after & -> & Hb & Hx).
    induction Hb as [|y before Hy Hb IH]; simpl.
    + rewrite Hx. reflexivity.
    + rewrite Hy. exact IH.
Qed.

Lemma find_none_all {A} (f : A -> bool) (l : list A) :
  find f l = None <-> Forall (fun y => f y = false) l.
Proof.
  induction l as [|y l IH]; simpl.
  - split; auto.
  - destruct (f y) eqn:Fy.
    + split; [discriminate|]. intros H. inversion H; congruence.
    + rewrite IH. split; [auto|]. intros H. inversion H; assumption.
Qed.

(** The array found among the values of an object is its first array-valued
    property. *)
Lemma find_array_field (props : list (string * json)) (items : list json) :
  find isArray (Object_values props) = Some (JArray items) <->
  exists before key after,
    props = (before ++ (key, JArray items) :: after)%list /\
    Forall (fun kv => isArray (snd kv) = false) before.
Proof.
  unfold Object_values. split.
  - induction props as [|[k v] props IH]; simpl; [discriminate|].
    destruct (isArray v) eqn:Hv.
    + intros [= ->]. exists [], k, props. split; auto.
    + intros H. destruct (IH H) as (before & key & after & -> & Hb).
      exists ((k, v) :: before), key, after. split; auto.
  - intros (before & key & after & -> & Hb).
    induction Hb as [|[k v] before Hy Hb IH]; simpl in *.
    + reflexivity.
    + rewrite Hy. exact IH.
Qed.

Lemma extractProducts_spec (body : json) (items : list json) (w : World) :
  ProductsOf body items <-> extractProducts body w = (Ok items, w).
Proof.
  split.
  - intros H. destruct H as [items|before after key items Hb]; simpl.
    + reflexivity.
    + assert (Hf : find isArray (Object_values (before ++ (key, JArray items) :: after))
                   = Some (JArray items)).
      { apply find_array_field. eauto. }
      rewrite Hf. reflexivity.
  - destruct body as [| | | |l|props]; simpl; unfold throw, ret; try discriminate.
    + intros [= ->]. constructor.
    + destruct (find isArray (Object_values props)) as [[| | | |l|ps]|] eqn:Hf;
        try discriminate.
      intros [= ->]. apply find_array_field in Hf.
      destruct Hf as (before & key & after & -> & Hb). constructor. exact Hb.
Qed.

Lemma extractProducts_pure (body : json) (w : World) :
  snd (extractProducts body w) = w.
Proof.
  destruct body as [| | | |l|props]; simpl; try reflexivity.
  destruct (find isArray (Object_values props)) as [[| | | |l|ps]|]; reflexivity.
Qed.

Lemma validateProductListResponse_ok (env : Env) (body : json) (minProducts : Z)
    (w : World) :
  fst (validateProductListResponse env body minProducts w) = Ok tt <->
  exists items,
    ProductsOf body items /\
    minProducts <= Z.of_nat (List.length items) /\
    first_is_object items.
Proof.
  unfold validateProductListResponse, try_catch, bind at 1.
  destruct (extractProducts body w) as [[items|msg] w0] eqn:Hx.
  - assert (Hw : w0 = w).
    { pose proof (extractProducts_pure body w) as H. rewrite Hx in H. exact H. }
    subst w0. apply extractProducts_spec in Hx.
    unfold expect_toBeGreaterThanOrEqual. unfold_js.
    destruct (Z.leb_spec minProducts (Z.of_nat (List.length items))) as [Hle|Hlt]; simpl.
    + destruct items as [|first rest]; simpl.
      * split; [|reflexivity]. intros _. exists []. repeat split; auto.
      * destruct (notAnObject first) eqn:Hfirst; simpl.
        -- split; [discriminate|]. intros (items' & H' & _ & Hobj).
           apply (extractProducts_spec _ _ w) in H', Hx. rewrite Hx in H'.
           injection H' as <-. simpl in Hobj. congruence.
        -- split; [|reflexivity]. intros _. exists (first :: rest). repeat split; auto.
    + split; [discriminate|]. intros (items' & H' & Hle & _).
      apply (extractProducts_spec _ _ w) in H', Hx. rewrite Hx in H'.
      injection H' as <-. lia.
  - simpl. unfold throw. simpl. split; [discriminate|].
    intros (items & H & _). apply (extractProducts_spec _ _ w) in H. congruence.
Qed.

Lemma validateProductListResponse_err (env : Env) (body : json) (minProducts : Z)
    (w : World) :
  (forall items, ~ ProductsOf body items) ->
  exists cause,
    fst (validateProductListResponse env body minProducts w) =
      Err ("Product list validation failed: " ++ cause ++ ". " ++
           "Expected at least " ++ show minProducts ++ " products in the response.") /\
    startsWith cause "Response is not an array" = true.
Proof.
  intros Hnone.
  destruct body as [| | | |l|props];
    try (eexists; split; [reflexivity|reflexivity]).
  - exfalso. apply (Hnone l). constructor.
  - unfold validateProductListResponse, try_catch, bind at 1. simpl.
    destruct (find isArray (Object_values props)) as [[| | | |l|ps]|] eqn:Hf;
      try (eexists; split; [reflexivity|reflexivity]).
    exfalso. apply find_array_field in Hf.
    destruct Hf as (before & key & after & -> & Hb).
    apply (Hnone l). constructor. exact Hb.
Qed.

(** C3. The collection [validateProductListResponse] measures is the one the
    extraction policy names: the body itself when it is an array, otherwise
    the first array-valued property of a non-null object (in the order of
    [Object.values]). The call succeeds exactly when that collection exists,
    has at least [minProducts] elements and, if not empty, starts with an
    object; when no such collection exists the call fails with a validation
    error. On [{status: "ok", items: [{}, {}]}] the collection is the
    two-element [items] array, so the call succeeds exactly for
    [minProducts <= 2]. *)
Theorem validateProductListResponse_extraction (env : Env) (body : json)
    (minProducts : Z) (w : World) :
  (forall items, ProductsOf body items <-> extractProducts body w = (Ok items, w)) /\
  (fst (validateProductListResponse env body minProducts w) = Ok tt <->
   exists items,
     ProductsOf body items /\
     minProducts <= Z.of_nat (List.length items) /\
     first_is_object items) /\
  ((forall items, ~ ProductsOf body items) ->
   exists cause,
     fst (validateProductListResponse env body minProducts w) =
       Err ("Product list validation failed: " ++ cause ++ ". " ++
            "Expected at least " ++ show minProducts ++ " products in the response.") /\
     startsWith cause "Response is not an array" = true) /\
  ProductsOf wrapped_body [JObject []; JObject []] /\
  (fst (validateProductListResponse env wrapped_body minProducts w) = Ok tt <->
   minProducts <= 2).
Proof.
  split; [intros items; apply extractProducts_spec|].
  split; [apply validateProductListResponse_ok|].
  split; [apply validateProductListResponse_err|].
  assert (Hw : ProductsOf wrapped_body [JObject []; JObject []]).
  { apply (ProductsOf_field [("status", JString "ok")] [] "items").
    repeat constructor. }
  split; [exact Hw|].
  rewrite validateProductListResponse_ok. split.
  - intros (items & H & Hle & _).
    apply (extractProducts_spec _ _ w) in H, Hw. rewrite Hw in H.
    injection H as <-. exact Hle.
  - intros Hle. exists [JObject []; JObject []]. repeat split; auto.
Qed.

Lemma validateProductListResponse_extraction_witness :
  (forall items, ~ ProductsOf (JString "down for maintenance") items) /\
  exists cause,
    fst (validateProductListResponse calm (JString "down for maintenance") 5 unstarted) =
      Err ("Product list validation failed: " ++ cause ++ ". " ++
           "Expected at least 5 products in the response.") /\
    startsWith cause "Response is not an array" = true.
Proof.
  assert (Hnone : forall items, ~ ProductsOf (JString "down for maintenance") items).
  { intros items H. inversion H. }
  split; [exact Hnone|].
  destruct (validateProductListResponse_extraction calm
              (JString "down for maintenance") 5 unstarted)
    as (_ & _ & Herr & _).
  exact (Herr Hnone).
Defined.

(** C4. On five empty objects with [minProducts = 5] the validation returns;
    on four it throws, and the message is the matcher's own message for
    "received 4, expected >= 5" followed by the required count. The found
    count is named by the matcher's message (the success log, not the error
    template, is where the helper itself prints it). *)
Theorem validateProductListResponse_minimum (env : Env) (w : World) :
  includes (toBeGreaterThanOrEqual_message env 4 5) "4" = true ->
  fst (validateProductListResponse env (empty_objects 5) 5 w) = Ok tt /\
  exists msg,
    fst (validateProductListResponse env (empty_objects 4) 5 w) = Err msg /\
    msg = "Product list validation failed: " ++
          toBeGreaterThanOrEqual_message env 4 5 ++
          ". Expected at least 5 products in the response." /\
    includes msg "4" = true /\
    includes msg "Expected at least 5 products" = true.
Proof.
  intros Hmatcher. split; [reflexivity|].
  eexists. split; [reflexivity|]. split; [reflexivity|]. split.
  - apply (includes_middle "Product list validation failed: " _ _ "4" Hmatcher).
  - apply includes_iff.
    exists ("Product list validation failed: " ++ toBeGreaterThanOrEqual_message env 4 5 ++ ". ").
    exists " in the response.".
    rewrite !append_assoc. reflexivity.
Qed.

Lemma validateProductListResponse_minimum_witness :
  includes (toBeGreaterThanOrEqual_message calm 4 5) "4" = true /\
  fst (validateProductListResponse calm (empty_objects 5) 5 unstarted) = Ok tt /\
  exists msg,
    fst (validateProductListResponse calm (empty_objects 4) 5 unstarted) = Err msg /\
    includes msg "4" = true /\
    includes msg "Expected at least 5 products" = true.
Proof.
  assert (H : includes (toBeGreaterThanOrEqual_message calm 4 5) "4" = true)
    by reflexivity.
  split; [exact H|].
  destruct (validateProductListResponse_minimum calm unstarted H)
    as (Hfive & msg & Hfour & _ & Hfound & Hrequired).
  split; [exact Hfive|]. exists msg. auto.
Defined.

Lemma responseMatches_iff (endpoint : string) (expectedStatus : Z) (r : Response) :
  responseMatches endpoint expectedStatus r = true <->
  includes (resp_url r) endpoint = true /\ resp_status r = expectedStatus.
Proof.
  unfold responseMatches. rewrite andb_true_iff, Z.eqb_eq. reflexivity.
Qed.

Lemma interceptApiRequest_ok (env : Env) (pg : Page) (endpoint : string)
    (expectedStatus : Z) (w : World) (data : json) :
  fst (interceptApiRequest env pg endpoint expectedStatus w) = Ok data <->
  exists before r after,
    responses env (trace w) pg TIMEOUTS.LONG = (before ++ r :: after)%list /\
    Forall (fun r' => responseMatches endpoint expectedStatus r' = false) before /\
    responseMatches endpoint expectedStatus r = true /\
    resp_json r = Ok data.
Proof.
  unfold interceptApiRequest, waitForResponse, response_json. unfold_js. simpl.
  destruct (find (responseMatches endpoint expectedStatus)
                 (responses env (trace w) pg TIMEOUTS.LONG)) as [r|] eqn:Hf; simpl.
  - pose proof (proj1 (find_first _ _ _) Hf) as (before & after & Hl & Hb & Hr).
    split.
    + intros H. exists before, r, after. repeat split; auto.
      destruct (negb _); simpl in *; destruct (resp_json r); simpl in *; congruence.
    + intros (before' & r' & after' & Hl' & Hb' & Hr' & Hdata).
      assert (Hf' : find (responseMatches endpoint expectedStatus)
                      (responses env (trace w) pg TIMEOUTS.LONG) = Some r').
      { apply find_first. eauto. }
      rewrite Hf in Hf'. injection Hf' as <-.
      destruct (negb _); simpl; rewrite Hdata; reflexivity.
  - split; [discriminate|].
    intros (before' & r' & after' & Hl' & Hb' & Hr' & Hdata).
    assert (Hf' : find (responseMatches endpoint expectedStatus)
                    (responses env (trace w) pg TIMEOUTS.LONG) = Some r').
    { apply find_first. eauto. }
    congruence.
Qed.

Lemma interceptApiRequest_timeout (env : Env) (pg : Page) (endpoint : string)
    (expectedStatus : Z) (w : World) :
  none_matches env pg endpoint expectedStatus w ->
  fst (interceptApiRequest env pg endpoint expectedStatus w) =
    Err ("API interception failed for " ++ endpoint ++ ": " ++
         waitForResponse_timeout env (trace w) pg TIMEOUTS.LONG ++ ". " ++
         "Please verify the endpoint is correct and the API is accessible.").
Proof.
  intros H. apply find_none_all in H.
  unfold interceptApiRequest, waitForResponse. unfold_js. simpl.
  unfold none_matches in H. rewrite H. reflexivity.
Qed.

(** C5. The predicate of [interceptApiRequest] is true of a response exactly
    when its URL contains the endpoint and its status equals the expected
    status. The body returned is that of the first arriving response on which
    the predicate is true; when no arriving response satisfies it the call
    fails with the timeout of the wait. A response whose status differs from
    the expected one never satisfies the predicate: a 404 on a URL containing
    [/entries] does not resolve the wait for [/entries] with status 200. *)
Theorem interception_gate (env : Env) (pg : Page) (endpoint : string)
    (expectedStatus : Z) (w : World) :
  (forall r,
     responseMatches endpoint expectedStatus r = true <->
     includes (resp_url r) endpoint = true /\ resp_status r = expectedStatus) /\
  (forall data,
     fst (interceptApiRequest env pg endpoint expectedStatus w) = Ok data <->
     exists before r after,
       responses env (trace w) pg TIMEOUTS.LONG = (before ++ r :: after)%list /\
       Forall (fun r' => responseMatches endpoint expectedStatus r' = false) before /\
       responseMatches endpoint expectedStatus r = true /\
       resp_json r = Ok data) /\
  (none_matches env pg endpoint expectedStatus w ->
   fst (interceptApiRequest env pg endpoint expectedStatus w) =
     Err ("API interception failed for " ++ endpoint ++ ": " ++
          waitForResponse_timeout env (trace w) pg TIMEOUTS.LONG ++ ". " ++
          "Please verify the endpoint is correct and the API is accessible.")) /\
  (forall r, resp_status r <> expectedStatus ->
             responseMatches endpoint expectedStatus r = false) /\
  (forall r, includes (resp_url r) "/entries" = true -> resp_status r = 404 ->
             responseMatches "/entries" 200 r = false) /\
  (Forall (fun r => resp_status r = 404) (responses env (trace w) pg TIMEOUTS.LONG) ->
   exists msg, fst (interceptApiRequest env pg "/entries" 200 w) = Err msg).
Proof.
  split; [intros r; apply responseMatches_iff|].
  split; [intros data; apply interceptApiRequest_ok|].
  split; [apply interceptApiRequest_timeout|].
  assert (Hstatus : forall e s r, resp_status r <> s -> responseMatches e s r = false).
  { intros e s r Hr. unfold responseMatches.
    destruct (Z.eqb_spec (resp_status r) s); [contradiction|apply andb_false_r]. }
  split; [apply Hstatus|].
  split.
  - intros r _ Hr. apply Hstatus. rewrite Hr. discriminate.
  - intros H. eexists. apply interceptApiRequest_timeout.
    unfold none_matches. eapply Forall_impl; [|exact H].
    intros r Hr. apply Hstatus. simpl in Hr. rewrite Hr. discriminate.
Qed.

Lemma interception_gate_witness :
  Forall (fun r => resp_status r = 404)
         (responses (scripted (Ok tt) no_dialog (Ok tt) None 0
                              [entries_response 404; entries_response 404])
                    [] page0 TIMEOUTS.LONG) /\
  (exists msg,
     fst (interceptApiRequest
            (scripted (Ok tt) no_dialog (Ok tt) None 0
                      [entries_response 404; entries_response 404])
            page0 "/entries" 200 unstarted) = Err msg) /\
  fst (interceptApiRequest
         (scripted (Ok tt) no_dialog (Ok tt) None 0
                   [entries_response 404; entries_response 200])
         page0 "/entries" 200 unstarted) = Ok (empty_objects 9).
Proof.
  assert (H : Forall (fun r => resp_status r = 404)
         (responses (scripted (Ok tt) no_dialog (Ok tt) None 0
                              [entries_response 404; entries_response 404])
                    [] page0 TIMEOUTS.LONG)).
  { repeat constructor. }
  split; [exact H|]. split.
  - destruct (interception_gate
                (scripted (Ok tt) no_dialog (Ok tt) None 0
                          [entries_response 404; entries_response 404])
                page0 "/entries" 200 unstarted) as (_ & _ & _ & _ & _ & Hto).
    exact (Hto H).
  - destruct (interception_gate
                (scripted (Ok tt) no_dialog (Ok tt) None 0
                          [entries_response 404; entries_response 200])
                page0 "/entries" 200 unstarted) as (_ & Hok & _).
    apply Hok. exists [entries_response 404], (entries_response 200), [].
    repeat split; repeat constructor.
Defined.

(* ===================================================================== *)
(** * helpers/auth and helpers/cart: dialogs *)
(* ===================================================================== *)

Ltac unfold_actions :=
  unfold clickElement, fillInput, verifyVisible, getCount, accept,
    waitForEvent_dialog, locator_click_, locator_fill_, expect_toBeVisible_,
    locator_count_, locator_waitFor_visible_, locator_textContent_,
    expect_toEqual in *.

(** Without a dialog, and with its four actions succeeding, [login] returns. *)
Lemma login_without_dialog (env : Env) (lower : string -> string) (pg : Page)
    (credentials : LoginCredentials) (w : World) :
  actions_succeed env -> no_dialog_fires env pg ->
  fst (login env lower pg credentials w) = Ok tt.
Proof.
  intros (Hclick & Hfill & _) Hnone.
  unfold login. unfold_actions. run_js.
  repeat (rewrite ?Hclick, ?Hfill; run_js).
  match goal with
  | |- context [dialog_event env ?h pg ?t] => destruct (Hnone h t) as [msg ->]
  end.
  reflexivity.
Qed.

(** When the click succeeds, the promise returned by [addProductToCart]
    settles as the dialog wait does: a timeout of the wait rejects it with
    the wait's own error. *)
Lemma addProductToCart_settles_as_wait (env : Env) (pg : Page) (w : World) :
  actions_succeed env ->
  fst (addProductToCart env pg w) =
    dialog_event env
      (EvConsole LvLog "✓ Click add to cart button"
       :: EvClick (SELECTORS.ADD_TO_CART_BUTTON pg) TIMEOUTS.MEDIUM
       :: EvWaitForDialog pg TIMEOUTS.MEDIUM :: trace w)
      pg TIMEOUTS.MEDIUM.
Proof.
  intros (Hclick & _ & _).
  unfold addProductToCart. unfold_actions. run_js.
  rewrite Hclick. run_js.
  destruct (dialog_event env _ pg TIMEOUTS.MEDIUM); reflexivity.
Qed.

(** Handed a promise that rejects, [verifyAddToCartSuccess] throws. *)
Lemma verifyAddToCartSuccess_rejected (env : Env) (lower : string -> string)
    (pg : Page) (dialogPromise : Promise Dialog) (w w0 : World) (msg : string) :
  dialogPromise w = (Err msg, w0) ->
  verifyAddToCartSuccess env lower pg dialogPromise w =
    (Err ("Add to cart success verification failed: " ++ msg ++ ". " ++
          "Please verify the product was added successfully."), w0).
Proof.
  intros H. unfold verifyAddToCartSuccess. run_js. rewrite H. reflexivity.
Qed.

(** C6 at the failing input: every action succeeds and no dialog is raised
    within the timeout. [login] returns. [addProductToCart] rejects with the
    bare timeout of the wait, so the step "I add the product to cart" fails
    and the step that calls [verifyAddToCartSuccess] is not run.
    [verifyAddToCartSuccess] itself throws when it is handed a rejected
    promise. *)
Theorem add_to_cart_timeout_fails_the_add_step :
  fst (login calm ascii_toLowerCase page0 credentials0 unstarted) = Ok tt /\
  fst (addProductToCart calm page0 unstarted) = Err timeout_message /\
  fst (runScenario (addToCartSteps calm ascii_toLowerCase page0)
                   {| dialogPromise := None |} unstarted) =
    [ ("I add the product to cart", Failed timeout_message);
      ("a success message should appear", Skipped) ] /\
  fst (verifyAddToCartSuccess calm ascii_toLowerCase page0
         (throw timeout_message) unstarted) =
    Err ("Add to cart success verification failed: " ++ timeout_message ++
         ". Please verify the product was added successfully.").
Proof.
  repeat split; reflexivity.
Qed.

(** C7. Whenever a dialog arrived, [verifyAddToCartSuccess] and
    [handleDialog] call [dialog.accept()] exactly once, on every path. When
    the message does not contain the expected text (compared in lower case)
    and the accepting succeeds, the mismatch error is thrown after the
    accepting and names the actual message and the expected text. *)
Theorem dialog_accepted_once (env : Env) (lower : string -> string) (pg : Page)
    (d : Dialog) :
  (forall (dialogPromise : Promise Dialog) (w w0 : World),
     dialogPromise w = (Ok d, w0) ->
     exists r w1 new,
       verifyAddToCartSuccess env lower pg dialogPromise w = (r, w1) /\
       trace w1 = (new ++ trace w0)%list /\
       accept_calls new = [EvAccept d] /\
       (includes (lower (dialog_message d)) "product added" = false ->
        includes (lower (dialog_message d)) "added" = false ->
        dialog_accept env (trace w0) d = Ok tt ->
        new = [EvAccept d] /\
        r = Err ("Add to cart success verification failed: " ++
                 ("Unexpected dialog message: " ++ dialog_message d ++
                  ". Expected: Product added") ++ ". " ++
                 "Please verify the product was added successfully."))) /\
  (forall (expectedMessage : option string) (timeout : Z) (w : World),
     dialog_event env (EvWaitForDialog pg timeout :: trace w) pg timeout = Ok d ->
     exists r w1 new,
       handleDialog env lower pg expectedMessage timeout w = (r, w1) /\
       trace w1 = (new ++ trace w)%list /\
       accept_calls new = [EvAccept d] /\
       (forall expected,
          expectedMessage = Some expected -> expected <> "" ->
          includes (lower (dialog_message d)) (lower expected) = false ->
          dialog_accept env (EvAwaitDialog pg :: EvWaitForDialog pg timeout :: trace w) d
            = Ok tt ->
          new = [EvAccept d; EvAwaitDialog pg; EvWaitForDialog pg timeout] /\
          r = Err ("Dialog handling failed: " ++
                   ("Unexpected dialog message: " ++ dialog_message d ++
                    ". Expected: " ++ expected)))).
Proof.
  split.
  - intros dialogPromise w w0 Hd.
    unfold verifyAddToCartSuccess. unfold_actions. run_js. rewrite Hd. run_js.
    destruct (includes (lower (dialog_message d)) "product added") eqn:H1;
      destruct (includes (lower (dialog_message d)) "added") eqn:H2; simpl;
      destruct (dialog_accept env (trace w0) d) as [[]|thrown] eqn:Ha; simpl;
      do 3 eexists; (split; [reflexivity|]); (split; [trace_split|]);
      (split; [reflexivity|]); intros; try discriminate; split; reflexivity.
  - intros expectedMessage timeout w Hd.
    unfold handleDialog. unfold_actions. run_js. rewrite Hd. run_js.
    destruct (truthy expectedMessage &&
              negb (includes (lower (dialog_message d))
                             (lower (or_else expectedMessage "")))) eqn:Hm;
      destruct (dialog_accept env (EvAwaitDialog pg :: EvWaitForDialog pg timeout :: trace w) d)
        as [[]|thrown] eqn:Ha;
      do 3 eexists; (split; [reflexivity|]); (split; [trace_split|]);
      (split; [reflexivity|]); intros expected -> Hne Hinc Hacc; try discriminate.
    + split; [reflexivity|]. simpl.
      destruct (String.eqb_spec expected ""); [contradiction|reflexivity].
    + exfalso. simpl in Hm.
      destruct (String.eqb_spec expected ""); [contradiction|].
      simpl in Hm. rewrite Hinc in Hm. discriminate.
Qed.

Lemma dialog_accepted_once_witness :
  dialog_event (raises sold_out) (EvWaitForDialog page0 TIMEOUTS.MEDIUM :: trace unstarted)
               page0 TIMEOUTS.MEDIUM = Ok sold_out /\
  (exists w1,
     verifyAddToCartSuccess (raises sold_out) ascii_toLowerCase page0 (ret sold_out)
                            unstarted =
       (Err ("Add to cart success verification failed: " ++
             "Unexpected dialog message: Sorry, out of stock.. Expected: Product added. " ++
             "Please verify the product was added successfully."), w1) /\
     trace w1 = [EvAccept sold_out]) /\
  (exists w1,
     handleDialog (raises sold_out) ascii_toLowerCase page0 (Some "Product added")
                  TIMEOUTS.MEDIUM unstarted =
       (Err ("Dialog handling failed: Unexpected dialog message: " ++
             "Sorry, out of stock.. Expected: Product added"), w1) /\
     accept_calls (trace w1) = [EvAccept sold_out]).
Proof.
  assert (Hd : dialog_event (raises sold_out)
                 (EvWaitForDialog page0 TIMEOUTS.MEDIUM :: trace unstarted)
                 page0 TIMEOUTS.MEDIUM = Ok sold_out) by reflexivity.
  split; [exact Hd|].
  destruct (dialog_accepted_once (raises sold_out) ascii_toLowerCase page0 sold_out)
    as [Hverify Hhandle].
  split.
  - destruct (Hverify (ret sold_out) unstarted unstarted eq_refl)
      as (r & w1 & new & Hrun & Htrace & _ & Hmismatch).
    destruct Hmismatch as [Hnew Hr]; try reflexivity.
    exists w1. rewrite Hrun, Hr, Htrace, Hnew. split; reflexivity.
  - destruct (Hhandle (Some "Product added") TIMEOUTS.MEDIUM unstarted Hd)
      as (r & w1 & new & Hrun & Htrace & _ & Hmismatch).
    destruct (Hmismatch "Product added" eq_refl) as [Hnew Hr];
      try reflexivity; try discriminate.
    exists w1. rewrite Hrun, Hr, Htrace, Hnew. split; reflexivity.
Defined.

(* ===================================================================== *)
(** * utils/actions: getText *)
(* ===================================================================== *)

(** [getText] of a visible element whose text is not the empty string
    returns the trimmed text, whatever the trimming leaves. *)
Lemma getText_returns_trimmed (env : Env) (trim : string -> string) (locator : Locator)
    (elementName : option string) (timeout : Z) (w : World) (text : string) :
  locator_waitFor_visible env (trace w) locator timeout = Ok tt ->
  locator_textContent env (EvWaitForVisible locator timeout :: trace w) locator timeout
    = Ok (Some text) ->
  text <> "" ->
  fst (getText env trim locator elementName timeout w) = Ok (trim text).
Proof.
  intros Hvisible Htext Hne.
  unfold getText. unfold_actions. run_js. rewrite Hvisible. run_js.
  rewrite Htext. run_js.
  destruct (String.eqb_spec text ""); [contradiction|reflexivity].
Qed.

(** [getText] throws when the text is [null] or the empty string. *)
Lemma getText_throws_on_empty (env : Env) (trim : string -> string) (locator : Locator)
    (elementName : option string) (timeout : Z) (w : World) (text : option string) :
  locator_waitFor_visible env (trace w) locator timeout = Ok tt ->
  locator_textContent env (EvWaitForVisible locator timeout :: trace w) locator timeout
    = Ok text ->
  text = None \/ text = Some "" ->
  fst (getText env trim locator elementName timeout w) =
    Err ("Failed to get text from " ++ or_else elementName "Element" ++ ": " ++
         "Element text is empty or null" ++ ". " ++
         "Please verify the element is visible and contains text.").
Proof.
  intros Hvisible Htext Hempty.
  unfold getText. unfold_actions. run_js. rewrite Hvisible. run_js.
  rewrite Htext. destruct Hempty as [-> | ->]; reflexivity.
Qed.

(** C8 at the failing input: the element is visible and its text content is
    three spaces. The emptiness test is made before the trimming, so
    [getText] returns the empty string instead of throwing. *)
Theorem getText_returns_empty_for_blank_text :
  locator_textContent blank_text [] (SELECTORS.PRODUCT_TITLE page0) TIMEOUTS.MEDIUM
    = Ok (Some "   ") /\
  ascii_trim "   " = "" /\
  fst (getText blank_text ascii_trim (SELECTORS.PRODUCT_TITLE page0)
               (Some "Product title") TIMEOUTS.MEDIUM unstarted) = Ok "".
Proof.
  repeat split; reflexivity.
Qed.

(* ===================================================================== *)
(** * helpers/cart: verifyCartItems *)
(* ===================================================================== *)

(** C9. [verifyCartItems] compares the number of cart rows with
    [expectedItemCount] for equality. Whatever else happens, when the count
    differs from the expected one (in particular when it is larger) the call
    throws, and the message still says "Expected at least". Where the
    actions succeed, the call returns exactly when the count equals the
    expected one. *)
Theorem verifyCartItems_exact (env : Env) (pg : Page) (expectedItemCount count : Z)
    (w : World) :
  (forall h, locator_count env h (SELECTORS.CART_ITEM_ROW pg) = Ok count) ->
  (count <> expectedItemCount ->
   exists cause,
     fst (verifyCartItems env pg expectedItemCount w) =
       Err ("Cart verification failed: " ++ cause ++ ". " ++
            "Expected at least " ++ show expectedItemCount ++ " item(s) in cart.")) /\
  (expectedItemCount < count ->
   exists cause,
     fst (verifyCartItems env pg expectedItemCount w) =
       Err ("Cart verification failed: " ++ cause ++ ". " ++
            "Expected at least " ++ show expectedItemCount ++ " item(s) in cart.")) /\
  (actions_succeed env ->
   (fst (verifyCartItems env pg expectedItemCount w) = Ok tt <->
    count = expectedItemCount)).
Proof.
  intros Hcount.
  assert (Hne : count <> expectedItemCount ->
    exists cause,
      fst (verifyCartItems env pg expectedItemCount w) =
        Err ("Cart verification failed: " ++ cause ++ ". " ++
             "Expected at least " ++ show expectedItemCount ++ " item(s) in cart.")).
  { intros Hdiff.
    unfold verifyCartItems, navigateToCart. unfold_actions. run_js.
    destruct (locator_click env (trace w) (SELECTORS.CART_LINK pg) TIMEOUTS.MEDIUM)
      as [[]|e1]; run_js; [|eexists; reflexivity].
    destruct (expect_toBeVisible env _ (SELECTORS.CART_TABLE pg) TIMEOUTS.MEDIUM)
      as [[]|e2]; run_js; [|eexists; reflexivity].
    destruct (expect_toBeVisible env _ (SELECTORS.CART_ITEM_ROW pg) TIMEOUTS.MEDIUM)
      as [[]|e3]; run_js; [|eexists; reflexivity].
    rewrite Hcount. run_js.
    destruct (Z.eqb_spec count expectedItemCount); [contradiction|].
    eexists; reflexivity. }
  split; [exact Hne|]. split; [intros Hlt; apply Hne; lia|].
  intros (Hclick & _ & Hvisible).
  unfold verifyCartItems, navigateToCart. unfold_actions. run_js.
  rewrite Hclick. run_js. rewrite Hvisible. run_js. rewrite Hvisible. run_js.
  rewrite Hcount. run_js.
  destruct (Z.eqb_spec count expectedItemCount); run_js; split; intros;
    try discriminate; try contradiction; auto.
Qed.

Lemma verifyCartItems_exact_witness :
  (forall h, locator_count (cart_rows 2) h (SELECTORS.CART_ITEM_ROW page0) = Ok 2) /\
  1 < 2 /\
  (exists cause,
     fst (verifyCartItems (cart_rows 2) page0 1 unstarted) =
       Err ("Cart verification failed: " ++ cause ++ ". " ++
            "Expected at least 1 item(s) in cart.")) /\
  fst (verifyCartItems (cart_rows 2) page0 2 unstarted) = Ok tt.
Proof.
  assert (Hcount : forall h,
            locator_count (cart_rows 2) h (SELECTORS.CART_ITEM_ROW page0) = Ok 2)
    by reflexivity.
  assert (Hlt : 1 < 2) by lia.
  split; [exact Hcount|]. split; [exact Hlt|]. split.
  - destruct (verifyCartItems_exact (cart_rows 2) page0 1 2 unstarted Hcount)
      as (_ & Hmore & _).
    exact (Hmore Hlt).
  - destruct (verifyCartItems_exact (cart_rows 2) page0 2 2 unstarted Hcount)
      as (_ & _ & Hok).
    apply Hok; [repeat split|reflexivity].
Defined.

(* ===================================================================== *)
(** * helpers/auth: login and dialogs *)
(* ===================================================================== *)

(** C10. When the actions of [login] succeed and a dialog is raised and
    accepted, [login] throws exactly when the lower-cased message contains
    "wrong password" or "user does not exist"; the error then names the
    message. On a dialog with any other message [login] accepts it and
    returns as on a successful login. *)
Theorem login_swallows_other_dialogs (env : Env) (lower : string -> string) (pg : Page)
    (credentials : LoginCredentials) (d : Dialog) (w : World) :
  actions_succeed env ->
  dialog_fires env pg d ->
  (forall h, dialog_accept env h d = Ok tt) ->
  exists r w1 new,
    login env lower pg credentials w = (r, w1) /\
    trace w1 = (new ++ trace w)%list /\
    accept_calls new = [EvAccept d] /\
    (includes (lower (dialog_message d)) "wrong password" = false ->
     includes (lower (dialog_message d)) "user does not exist" = false ->
     r = Ok tt /\
     hd_error new = Some (EvConsole LvLog ("✓ Successfully logged in as " ++
                                           username credentials))) /\
    (includes (lower (dialog_message d)) "wrong password" = true \/
     includes (lower (dialog_message d)) "user does not exist" = true ->
     r = Err ("Login failed for user " ++ dq ++ username credentials ++ dq ++ ": " ++
              ("Login failed: " ++ dialog_message d) ++ ". " ++
              "Please verify credentials and that the site is accessible.")).
Proof.
  intros (Hclick & Hfill & _) Hdialog Haccept.
  unfold login. unfold_actions. run_js.
  repeat (rewrite ?Hclick, ?Hfill; run_js).
  rewrite Hdialog. run_js. rewrite Haccept. run_js.
  destruct (includes (lower (dialog_message d)) "wrong password") eqn:H1;
    destruct (includes (lower (dialog_message d)) "user does not exist") eqn:H2;
    run_js; do 3 eexists; (split; [reflexivity|]); (split; [trace_split|]);
    (split; [reflexivity|]); split; intros; try discriminate;
    try (split; reflexivity); try reflexivity.
  all: intuition discriminate.
Qed.

Lemma login_swallows_other_dialogs_witness :
  actions_succeed (raises captcha) /\
  dialog_fires (raises captcha) page0 captcha /\
  (forall h, dialog_accept (raises captcha) h captcha = Ok tt) /\
  fst (login (raises captcha) ascii_toLowerCase page0 credentials0 unstarted) = Ok tt.
Proof.
  assert (Ha : actions_succeed (raises captcha)) by (repeat split).
  assert (Hd : dialog_fires (raises captcha) page0 captcha) by (intros h t; reflexivity).
  assert (Hacc : forall h, dialog_accept (raises captcha) h captcha = Ok tt)
    by reflexivity.
  split; [exact Ha|]. split; [exact Hd|]. split; [exact Hacc|].
  destruct (login_swallows_other_dialogs (raises captcha) ascii_toLowerCase page0
              credentials0 captcha unstarted Ha Hd Hacc)
    as (r & w1 & new & Hrun & _ & _ & Hother & _).
  rewrite Hrun. simpl. apply Hother; reflexivity.
Defined.

(* ===================================================================== *)
(** * Further properties: helpers/browser-setup *)
(* ===================================================================== *)

Ltac case_creation :=
  repeat match goal with
    | |- context [launch ?e ?h ?l ?o] =>
        let E := fresh "E" in destruct (launch e h l o) as [?|?] eqn:E; simpl
    | |- context [newContext ?e ?h ?b ?o] =>
        let E := fresh "E" in destruct (newContext e h b o) as [?|?] eqn:E; simpl
    | |- context [newPage ?e ?h ?c] =>
        let E := fresh "E" in destruct (newPage e h c) as [?|?] eqn:E; simpl
    end.

Ltac case_teardown :=
  repeat match goal with
    | |- context [page_close ?e ?h ?p] =>
        let E := fresh "E" in destruct (page_close e h p) as [[]|?] eqn:E; simpl
    | |- context [context_close ?e ?h ?c] =>
        let E := fresh "E" in destruct (context_close e h c) as [[]|?] eqn:E; simpl
    | |- context [browser_close ?e ?h ?b] =>
        let E := fresh "E" in destruct (browser_close e h b) as [[]|?] eqn:E; simpl
    end.

(** X1. The nesting of the chain (a page only with its context, a context
    only with its browser) is an invariant of both operations: whatever the
    environment answers, [initializeBrowser] and [cleanupBrowser] take a
    nested world to a nested world, also when they fail half-way. *)
Theorem chain_stays_nested (env : Env) (cfg : TestConfig) (w : World) :
  nested w ->
  nested (snd (initializeBrowser env cfg w)) /\
  nested (snd (cleanupBrowser env w)).
Proof.
  intros [Hpage Hcontext].
  destruct w as [[b|] [c|] [p|] t]; simpl in *;
    try (exfalso; apply Hpage; [discriminate|reflexivity]);
    try (exfalso; apply Hcontext; [discriminate|reflexivity]).
  all: split.
  all: unfold initializeBrowser, cleanupBrowser; unfold_js; simpl;
       case_creation; case_teardown; unfold nested; simpl;
       split; intros; congruence.
Qed.

Lemma chain_stays_nested_witness :
  nested page_ready /\
  nested (snd (cleanupBrowser context_close_throws page_ready)) /\
  nested (snd (initializeBrowser launch_throws config0 unstarted)).
Proof.
  assert (H : nested page_ready) by (split; discriminate).
  assert (H0 : nested unstarted) by (split; intros C; exfalso; apply C; reflexivity).
  split; [exact H|]. split.
  - apply (chain_stays_nested context_close_throws config0 page_ready H).
  - apply (chain_stays_nested launch_throws config0 unstarted H0).
Defined.

(** X2. [initializeBrowser] on failure. Whatever the environment answers,
    the creation calls made are an initial part of the missing links, parent
    first, and the handles that were set stay set. When a creation call
    throws, it is the last call made, the error is logged once and rethrown
    unchanged, and the page variable is left as it was; the links created
    before the failure are kept, so that a later call does not repeat them.
    When the call returns, nothing is missing any more. *)
Theorem initializeBrowser_stops_at_failure (env : Env) (cfg : TestConfig) (w : World) :
  exists r w1 new,
    initializeBrowser env cfg w = (r, w1) /\
    trace w1 = (new ++ trace w)%list /\
    (exists k, created (rev new) = firstn k (missing w)) /\
    (forall b, browser w = Some b -> browser w1 = Some b) /\
    (forall c, context w = Some c -> context w1 = Some c) /\
    (forall p, page w = Some p -> page w1 = Some p) /\
    (forall error, r = Err error ->
       page w1 = page w /\
       exists failed rest,
         new = (EvLogger LvError "Failed to initialize browser" (MetaError error)
                :: failed :: rest)%list /\
         creation_error env (rest ++ trace w)%list failed = Some error /\
         (created (rev rest) ++ missing w1)%list = missing w) /\
    (forall p, r = Ok p -> page w1 = Some p /\ missing w1 = []).
Proof.
  destruct w as [[b|] [c|] [p|] t]; unfold initializeBrowser; unfold_js; simpl;
    case_creation.
  all: do 3 eexists; split; [reflexivity|]; split; [trace_split|]; simpl.
  all: split;
       [ first [ exists 0%nat; reflexivity | exists 1%nat; reflexivity
               | exists 2%nat; reflexivity | exists 3%nat; reflexivity ] |].
  all: do 3 (split; [intros; congruence|]).
  all: split.
  all: try (intros ? HOk; discriminate HOk).
  all: try (intros ? HOk; injection HOk as <-; split; reflexivity).
  all: intros error HErr; injection HErr as <-.
  all: split; [reflexivity|]; do 2 eexists; split; [reflexivity|]; simpl.
  all: split; [ match goal with E : _ = Err _ |- _ => rewrite E end; reflexivity
              | reflexivity ].
Qed.

Lemma initializeBrowser_stops_at_failure_witness :
  exists w1,
    initializeBrowser launch_throws config0 unstarted =
      (Err "browserType.launch: Executable does not exist", w1) /\
    page w1 = None /\ browser w1 = None /\
    created (rev (trace w1)) = [LBrowser].
Proof.
  destruct (initializeBrowser_stops_at_failure launch_throws config0 unstarted)
    as (r & w1 & new & Hrun & Htrace & _ & _ & _ & _ & Herr & _).
  exists w1. rewrite Hrun. cbv in Hrun. injection Hrun as <- <-.
  repeat split.
Defined.

(** X3. What a failed teardown leaves is reused. If [page.close()] throws
    while the chain is complete, the next [initializeBrowser] makes no call
    and returns that same page. If the page closes and [context.close()]
    throws, the next [initializeBrowser] opens its page on that same context,
    and returns or throws as [newPage] does. *)
Theorem failed_teardown_is_reused (env env' : Env) (cfg : TestConfig) (w : World)
    (b : Browser) (c : BrowserContext) (p : Page) (error : string) :
  browser w = Some b -> context w = Some c -> page w = Some p ->
  let w1 := snd (cleanupBrowser env w) in
  (page_close env (trace w) p = Err error ->
   initializeBrowser env' cfg w1 = (Ok p, w1)) /\
  (page_close env (trace w) p = Ok tt ->
   context_close env (EvLogger LvDebug "Page closed" MetaNone :: EvClosePage p :: trace w) c
     = Err error ->
   context w1 = Some c /\ page w1 = None /\
   match newPage env' (trace w1) c with
   | Ok p' =>
       fst (initializeBrowser env' cfg w1) = Ok p' /\
       calls (trace (snd (initializeBrowser env' cfg w1))) =
         (EvNewPage c :: calls (trace w1))%list
   | Err error' => fst (initializeBrowser env' cfg w1) = Err error'
   end).
Proof.
  destruct w as [b0 c0 p0 t]; simpl. intros -> -> ->. split.
  - intros Hclose. unfold cleanupBrowser. unfold_js. simpl. rewrite Hclose. reflexivity.
  - intros Hpage Hctx. unfold cleanupBrowser. unfold_js. simpl.
    rewrite Hpage. simpl. rewrite Hctx. simpl.
    split; [reflexivity|]. split; [reflexivity|].
    unfold initializeBrowser. unfold_js. simpl.
    destruct (newPage env' _ c) as [p'|error']; simpl.
    + split; reflexivity.
    + reflexivity.
Qed.

Lemma failed_teardown_is_reused_witness :
  page_close page_close_throws (trace page_ready) (PageHandle 4) =
    Err "page.close: Target page, context or browser has been closed" /\
  initializeBrowser calm config0 (snd (cleanupBrowser page_close_throws page_ready)) =
    (Ok (PageHandle 4), snd (cleanupBrowser page_close_throws page_ready)) /\
  fst (initializeBrowser calm config0
         (snd (cleanupBrowser context_close_throws page_ready))) = Ok (PageHandle 4).
Proof.
  split; [reflexivity|]. split.
  - apply (failed_teardown_is_reused page_close_throws calm config0 page_ready
             (BrowserHandle 0) (ContextHandle 2) (PageHandle 4)
             "page.close: Target page, context or browser has been closed");
      reflexivity.
  - destruct (failed_teardown_is_reused context_close_throws calm config0 page_ready
                (BrowserHandle 0) (ContextHandle 2) (PageHandle 4)
                "browserContext.close: Target closed" eq_refl eq_refl eq_refl)
      as [_ H].
    destruct (H eq_refl eq_refl) as (_ & _ & Hnew). simpl in Hnew. apply Hnew.
Defined.

(* ===================================================================== *)
(** * Further properties: utils/actions *)
(* ===================================================================== *)

(** X4. The action wrappers do not retry. Whatever the environment answers,
    [clickElement], [fillInput], [verifyVisible] and [getCount] make exactly
    one call into Playwright. They return exactly when that call returns
    ([getCount] with the count it gave, zero included), and when it throws
    they throw its message wrapped in a text that names the action, with a
    fixed name when the description is omitted or empty. *)
Theorem action_wrappers_call_once (env : Env) (locator : Locator) (value : string)
    (description : option string) (timeout : Z) (w : World) :
  (exists r w1 new,
     clickElement env locator description timeout w = (r, w1) /\
     trace w1 = (new ++ trace w)%list /\
     calls new = [EvClick locator timeout] /\
     match locator_click env (trace w) locator timeout with
     | Ok _ => r = Ok tt
     | Err cause =>
         r = Err (or_else description "Click action" ++ " failed: " ++ cause ++ ". " ++
                  "Please verify the element is visible and actionable.")
     end) /\
  (exists r w1 new,
     fillInput env locator value description timeout w = (r, w1) /\
     trace w1 = (new ++ trace w)%list /\
     calls new = [EvFill locator value timeout] /\
     match locator_fill env (trace w) locator value timeout with
     | Ok _ => r = Ok tt
     | Err cause =>
         r = Err ("Failed to fill " ++ or_else description "input" ++ " field: " ++
                  cause ++ ". " ++ "Please verify the field is visible and editable.")
     end) /\
  (exists r w1 new,
     verifyVisible env locator description timeout w = (r, w1) /\
     trace w1 = (new ++ trace w)%list /\
     calls new = [EvToBeVisible locator timeout] /\
     match expect_toBeVisible env (trace w) locator timeout with
     | Ok _ => r = Ok tt
     | Err cause =>
         r = Err (or_else description "Element" ++ " is not visible: " ++ cause ++ ". " ++
                  "Please verify the element exists and is displayed.")
     end) /\
  (exists r w1 new,
     getCount env locator description w = (r, w1) /\
     trace w1 = (new ++ trace w)%list /\
     calls new = [EvCount locator] /\
     match locator_count env (trace w) locator with
     | Ok count => r = Ok count
     | Err cause =>
         r = Err ("Failed to count " ++ or_else description "elements" ++ ": " ++
                  cause ++ ". " ++ "Please verify the locator is correct.")
     end).
Proof.
  repeat split; unfold clickElement, fillInput, verifyVisible, getCount;
    unfold_actions; run_js.
  - destruct (locator_click env (trace w) locator timeout) as [[]|cause];
      [destruct (truthy description)|];
      do 3 eexists; (split; [reflexivity|]); (split; [trace_split|]);
      split; reflexivity.
  - destruct (locator_fill env (trace w) locator value timeout) as [[]|cause];
      [destruct (truthy description)|];
      do 3 eexists; (split; [reflexivity|]); (split; [trace_split|]);
      split; reflexivity.
  - destruct (expect_toBeVisible env (trace w) locator timeout) as [[]|cause];
      [destruct (truthy description)|];
      do 3 eexists; (split; [reflexivity|]); (split; [trace_split|]);
      split; reflexivity.
  - destruct (locator_count env (trace w) locator) as [count|cause];
      [destruct (truthy description)|];
      do 3 eexists; (split; [reflexivity|]); (split; [trace_split|]);
      split; reflexivity.
Qed.

(** X5. [getText] returns a string exactly when the element became visible
    and its text content is a non-empty string; the string returned is then
    the trimmed text. When the wait for visibility throws, the text is never
    read and the error is the wrapped cause. *)
Theorem getText_result (env : Env) (trim : string -> string) (locator : Locator)
    (elementName : option string) (timeout : Z) (w : World) :
  (forall s,
     fst (getText env trim locator elementName timeout w) = Ok s <->
     locator_waitFor_visible env (trace w) locator timeout = Ok tt /\
     exists text,
       locator_textContent env (EvWaitForVisible locator timeout :: trace w)
                           locator timeout = Ok (Some text) /\
       text <> "" /\ s = trim text) /\
  (forall cause,
     locator_waitFor_visible env (trace w) locator timeout = Err cause ->
     getText env trim locator elementName timeout w =
       (Err ("Failed to get text from " ++ or_else elementName "Element" ++ ": " ++
             cause ++ ". " ++ "Please verify the element is visible and contains text."),
        record (EvWaitForVisible locator timeout) w)).
Proof.
  split.
  - intros s. unfold getText. unfold_actions. run_js.
    destruct (locator_waitFor_visible env (trace w) locator timeout) as [[]|cause]; run_js.
    + destruct (locator_textContent env (EvWaitForVisible locator timeout :: trace w)
                                    locator timeout) as [[text|]|cause]; run_js.
      * destruct (String.eqb_spec text "") as [->|Hne]; run_js.
        -- split; [discriminate|].
           intros (_ & text' & [= <-] & Hne & _). contradiction.
        -- split.
           ++ intros [= <-]. split; [reflexivity|]. exists text. auto.
           ++ intros (_ & text' & [= <-] & _ & ->). reflexivity.
      * split; [discriminate|]. intros (_ & text' & Habs & _). discriminate.
      * split; [discriminate|]. intros (_ & text' & Habs & _). discriminate.
    + split; [discriminate|]. intros (Habs & _). discriminate.
  - intros cause Hwait. unfold getText. unfold_actions. run_js.
    rewrite Hwait. reflexivity.
Qed.

Lemma getText_result_witness :
  locator_waitFor_visible calm (trace unstarted) (SELECTORS.PRODUCT_TITLE page0)
                          TIMEOUTS.MEDIUM = Ok tt /\
  fst (getText calm ascii_trim (SELECTORS.PRODUCT_TITLE page0) None TIMEOUTS.MEDIUM
               unstarted) = Ok "Samsung galaxy s6".
Proof.
  split; [reflexivity|].
  apply (getText_result calm ascii_trim (SELECTORS.PRODUCT_TITLE page0) None
           TIMEOUTS.MEDIUM unstarted).
  split; [reflexivity|]. exists "Samsung galaxy s6".
  split; [reflexivity|]. split; [discriminate|reflexivity].
Defined.

(** X6. [handleDialog] and the absent dialog. When no dialog arrives within
    the timeout, [handleDialog] returns [null] and accepts nothing, whatever
    message was expected: the timeout is never an error. When a dialog
    arrives and no message is expected (omitted or empty), the dialog is
    accepted and its message returned whatever it says. When the accepting
    throws, the error is that of [accept], wrapped. *)
Theorem handleDialog_optional (env : Env) (lower : string -> string) (pg : Page)
    (expectedMessage : option string) (timeout : Z) (w : World) :
  (forall cause,
     dialog_event env (EvWaitForDialog pg timeout :: trace w) pg timeout = Err cause ->
     handleDialog env lower pg expectedMessage timeout w =
       (Ok None, record (EvAwaitDialog pg) (record (EvWaitForDialog pg timeout) w))) /\
  (forall d,
     dialog_event env (EvWaitForDialog pg timeout :: trace w) pg timeout = Ok d ->
     dialog_accept env (EvAwaitDialog pg :: EvWaitForDialog pg timeout :: trace w) d = Ok tt ->
     truthy expectedMessage = false ->
     fst (handleDialog env lower pg expectedMessage timeout w) =
       Ok (Some (dialog_message d))) /\
  (forall d cause,
     dialog_event env (EvWaitForDialog pg timeout :: trace w) pg timeout = Ok d ->
     dialog_accept env (EvAwaitDialog pg :: EvWaitForDialog pg timeout :: trace w) d
       = Err cause ->
     fst (handleDialog env lower pg expectedMessage timeout w) =
       Err ("Dialog handling failed: " ++ cause)).
Proof.
  repeat split; intros; unfold handleDialog; unfold_actions; run_js.
  - rewrite H. reflexivity.
  - rewrite H. run_js. rewrite H0. run_js. rewrite H1. reflexivity.
  - rewrite H. run_js. rewrite H0. reflexivity.
Qed.

Lemma handleDialog_optional_witness :
  dialog_event calm (EvWaitForDialog page0 TIMEOUTS.SHORT :: trace unstarted)
               page0 TIMEOUTS.SHORT = Err timeout_message /\
  fst (handleDialog calm ascii_toLowerCase page0 (Some "Product added")
                    TIMEOUTS.SHORT unstarted) = Ok None /\
  fst (handleDialog (raises captcha) ascii_toLowerCase page0 (Some "")
                    TIMEOUTS.SHORT unstarted) = Ok (Some "Please solve the captcha.").
Proof.
  split; [reflexivity|].
  destruct (handleDialog_optional calm ascii_toLowerCase page0 (Some "Product added")
              TIMEOUTS.SHORT unstarted) as (Hnone & _ & _).
  destruct (handleDialog_optional (raises captcha) ascii_toLowerCase page0 (Some "")
              TIMEOUTS.SHORT unstarted) as (_ & Hany & _).
  split.
  - rewrite (Hnone timeout_message eq_refl). reflexivity.
  - apply (Hany captcha); reflexivity.
Defined.

(* ===================================================================== *)
(** * Further properties: helpers/auth and helpers/cart *)
(* ===================================================================== *)

Lemma includes_trans (a b c : string) :
  includes a b = true -> includes b c = true -> includes a c = true.
Proof.
  intros Hab Hbc.
  destruct (includes_split _ _ Hab) as (x & y & ->).
  apply includes_middle. exact Hbc.
Qed.

(** Walks a decomposition [l = before ++ x :: after] of a concrete list [l]
    through every position. *)
Ltac walk H :=
  lazymatch type of H with
  | [] = (?b ++ _ :: _)%list => destruct b; discriminate H
  | (_ :: _) = (?b ++ _ :: _)%list =>
      let e := fresh "e" in
      destruct b as [|e b]; simpl in H;
      [ try discriminate H; try (exfalso; congruence)
      | let He := fresh "He" in injection H as He H; subst e; walk H ]
  end.

(** X7. Arm, trigger, await. In every run of [addProductToCart] and of
    [login], whatever the environment answers, the click on the button that
    raises the dialog is made after [page.waitForEvent('dialog')] was called
    and before its promise is awaited; [addProductToCart] arms the wait
    before anything else. *)
Theorem dialog_armed_before_trigger (env : Env) (lower : string -> string) (pg : Page)
    (credentials : LoginCredentials) (w : World) :
  (exists r w1 new,
     addProductToCart env pg w = (r, w1) /\
     trace w1 = (new ++ trace w)%list /\
     hd_error (rev new) = Some (EvWaitForDialog pg TIMEOUTS.MEDIUM) /\
     forall before t after,
       rev new = (before ++ EvClick (SELECTORS.ADD_TO_CART_BUTTON pg) t :: after)%list ->
       In (EvWaitForDialog pg TIMEOUTS.MEDIUM) before /\
       ~ In (EvAwaitDialog pg) before) /\
  (exists r w1 new,
     login env lower pg credentials w = (r, w1) /\
     trace w1 = (new ++ trace w)%list /\
     forall before t after,
       rev new = (before ++ EvClick (SELECTORS.LOGIN_BUTTON pg) t :: after)%list ->
       In (EvWaitForDialog pg TIMEOUTS.MEDIUM) before /\
       ~ In (EvAwaitDialog pg) before).
Proof.
  split.
  - unfold addProductToCart. unfold_actions. run_js.
    destruct (locator_click env _ (SELECTORS.ADD_TO_CART_BUTTON pg) TIMEOUTS.MEDIUM)
      as [[]|cause]; run_js;
      destruct (dialog_event env _ pg TIMEOUTS.MEDIUM) as [d|reason]; run_js;
      do 3 eexists; (split; [reflexivity|]); (split; [trace_split|]);
      (split; [reflexivity|]); intros before t after Hsplit; simpl in Hsplit;
      walk Hsplit; (split; [simpl; tauto | simpl; intuition discriminate]).
  - unfold login. unfold_actions. run_js.
    destruct (locator_click env _ (SELECTORS.LOGIN_LINK pg) TIMEOUTS.MEDIUM)
      as [[]|cause]; run_js;
      [destruct (locator_fill env _ (SELECTORS.LOGIN_USERNAME_INPUT pg) _ _)
         as [[]|cause]; run_js;
       [destruct (locator_fill env _ (SELECTORS.LOGIN_PASSWORD_INPUT pg) _ _)
          as [[]|cause]; run_js;
        [destruct (locator_click env _ (SELECTORS.LOGIN_BUTTON pg) TIMEOUTS.MEDIUM)
           as [[]|cause]; run_js;
         [destruct (dialog_event env _ pg TIMEOUTS.MEDIUM) as [d|cause]; run_js;
          [destruct (dialog_accept env _ d) as [[]|cause]; run_js;
           [destruct (includes (lower (dialog_message d)) "wrong password" ||
                      includes (lower (dialog_message d)) "user does not exist");
            run_js|]|]|]|]|]|];
      do 3 eexists; (split; [reflexivity|]); (split; [trace_split|]);
      intros before t after Hsplit; simpl in Hsplit;
      walk Hsplit; (split; [simpl; tauto | simpl; intuition discriminate]).
Qed.




(** X9. [verifyAddToCartSuccess] on a dialog that arrived and can be
    accepted returns exactly when the lower-cased message contains "added":
    the test for "product added" adds nothing, since every message that
    contains "product added" contains "added". *)
Theorem verifyAddToCartSuccess_added (env : Env) (lower : string -> string) (pg : Page)
    (dialogPromise : Promise Dialog) (d : Dialog) (w w0 : World) :
  dialogPromise w = (Ok d, w0) ->
  dialog_accept env (trace w0) d = Ok tt ->
  (fst (verifyAddToCartSuccess env lower pg dialogPromise w) = Ok tt <->
   includes (lower (dialog_message d)) "added" = true).
Proof.
  intros Hd Haccept.
  assert (Himp : includes (lower (dialog_message d)) "product added" = true ->
                 includes (lower (dialog_message d)) "added" = true).
  { intros H. apply (includes_trans _ "product added"); [exact H|reflexivity]. }
  unfold verifyAddToCartSuccess. unfold_actions. run_js. rewrite Hd. run_js.
  destruct (includes (lower (dialog_message d)) "product added") eqn:H1;
    destruct (includes (lower (dialog_message d)) "added") eqn:H2;
    simpl; rewrite Haccept; simpl; split; intros; try reflexivity;
    try discriminate.
  specialize (Himp eq_refl). discriminate.
Qed.

Lemma verifyAddToCartSuccess_added_witness :
  dialog_accept (raises added) (trace unstarted) added = Ok tt /\
  includes (ascii_toLowerCase (dialog_message added)) "added" = true /\
  fst (verifyAddToCartSuccess (raises added) ascii_toLowerCase page0 (ret added)
                              unstarted) = Ok tt.
Proof.
  split; [reflexivity|]. split; [reflexivity|].
  apply (verifyAddToCartSuccess_added (raises added) ascii_toLowerCase page0
           (ret added) added unstarted unstarted eq_refl eq_refl).
  reflexivity.
Defined.

(** X10. [login] without a dialog. When the four actions succeed and the
    dialog wait times out, [login] returns: the rejection of the wait is
    turned into [null], nothing is accepted, and the last thing done is the
    success log. *)
Theorem login_no_dialog_is_success (env : Env) (lower : string -> string) (pg : Page)
    (credentials : LoginCredentials) (w : World) :
  actions_succeed env -> no_dialog_fires env pg ->
  exists w1 new,
    login env lower pg credentials w = (Ok tt, w1) /\
    trace w1 = (new ++ trace w)%list /\
    accept_calls new = [] /\
    calls (rev new) =
      [ EvClick (SELECTORS.LOGIN_LINK pg) TIMEOUTS.MEDIUM;
        EvFill (SELECTORS.LOGIN_USERNAME_INPUT pg) (username credentials) TIMEOUTS.MEDIUM;
        EvFill (SELECTORS.LOGIN_PASSWORD_INPUT pg) (password credentials) TIMEOUTS.MEDIUM;
        EvWaitForDialog pg TIMEOUTS.MEDIUM;
        EvClick (SELECTORS.LOGIN_BUTTON pg) TIMEOUTS.MEDIUM;
        EvAwaitDialog pg ] /\
    hd_error new = Some (EvConsole LvLog ("✓ Successfully logged in as " ++
                                          username credentials)).
Proof.
  intros (Hclick & Hfill & _) Hnone.
  unfold login. unfold_actions. run_js.
  repeat (rewrite ?Hclick, ?Hfill; run_js).
  match goal with
  | |- context [dialog_event env ?h pg ?t] => destruct (Hnone h t) as [msg ->]
  end.
  run_js. do 2 eexists. split; [reflexivity|]. split; [trace_split|].
  repeat split.
Qed.

Lemma login_no_dialog_is_success_witness :
  actions_succeed calm /\ no_dialog_fires calm page0 /\
  fst (login calm ascii_toLowerCase page0 credentials0 unstarted) = Ok tt.
Proof.
  assert (Ha : actions_succeed calm) by (repeat split).
  assert (Hn : no_dialog_fires calm page0) by (intros h t; eexists; reflexivity).
  split; [exact Ha|]. split; [exact Hn|].
  destruct (login_no_dialog_is_success calm ascii_toLowerCase page0 credentials0
              unstarted Ha Hn) as (w1 & new & Hrun & _).
  rewrite Hrun. reflexivity.
Defined.

(* ===================================================================== *)
(** * Further properties: utils/api-helper *)
(* ===================================================================== *)

(** X11. The declared content type is not decisive. Once a response
    satisfies the predicate, [interceptApiRequest] returns whatever
    [response.json()] yields and throws its wrapped error when the body does
    not parse, whether or not the content type says JSON; a content type
    without "application/json" (or none at all) only adds a warning. The
    calls made are the wait and the decoding, nothing else. *)
Theorem interceptApiRequest_content_type (env : Env) (pg : Page) (endpoint : string)
    (expectedStatus : Z) (w : World) (r : Response) :
  find (responseMatches endpoint expectedStatus)
       (responses env (trace w) pg TIMEOUTS.LONG) = Some r ->
  exists w1 new,
    interceptApiRequest env pg endpoint expectedStatus w =
      (match resp_json r with
       | Ok data => Ok data
       | Err cause =>
           Err ("API interception failed for " ++ endpoint ++ ": " ++ cause ++ ". " ++
                "Please verify the endpoint is correct and the API is accessible.")
       end, w1) /\
    trace w1 = (new ++ trace w)%list /\
    calls (rev new) = [EvWaitForResponse pg TIMEOUTS.LONG; EvResponseJson r] /\
    (In (EvConsole LvWarn ("Warning: Response content-type is " ++
                           or_else (resp_content_type r) "" ++ ", expected JSON")) new <->
     includes (or_else (resp_content_type r) "") "application/json" = false).
Proof.
  intros Hfind.
  unfold interceptApiRequest, waitForResponse, response_json. run_js.
  rewrite Hfind.
  destruct (includes (or_else (resp_content_type r) "") "application/json") eqn:Hct;
    simpl; destruct (resp_json r) as [data|cause]; simpl;
    do 2 eexists; (split; [reflexivity|]); (split; [trace_split|]);
    (split; [reflexivity|]); simpl; split; intros H;
    try discriminate; try reflexivity; try tauto;
    repeat (destruct H as [H|H]; try discriminate H); try contradiction.
Qed.

Lemma interceptApiRequest_content_type_witness :
  find (responseMatches "/entries" 200)
       (responses (scripted (Ok tt) no_dialog (Ok tt) None 0 [mislabelled_response])
                  (trace unstarted) page0 TIMEOUTS.LONG) = Some mislabelled_response /\
  fst (interceptApiRequest
         (scripted (Ok tt) no_dialog (Ok tt) None 0 [mislabelled_response])
         page0 "/entries" 200 unstarted) = Ok (empty_objects 9).
Proof.
  split; [reflexivity|].
  destruct (interceptApiRequest_content_type
              (scripted (Ok tt) no_dialog (Ok tt) None 0 [mislabelled_response])
              page0 "/entries" 200 unstarted mislabelled_response eq_refl)
    as (w1 & new & Hrun & _).
  rewrite Hrun. reflexivity.
Defined.

(** X12. Of an array body [validateProductListResponse] reads the length and
    the first element only: two arrays of the same length with the same
    first element are treated alike (same outcome, same message, same log),
    whatever the other elements are. The empty array passes exactly when the
    minimum is not positive. *)
Theorem validation_reads_length_and_head (env : Env) (items1 items2 : list json)
    (minProducts : Z) (w : World) :
  List.length items1 = List.length items2 ->
  hd_error items1 = hd_error items2 ->
  validateProductListResponse env (JArray items1) minProducts w =
    validateProductListResponse env (JArray items2) minProducts w /\
  (fst (validateProductListResponse env (JArray []) minProducts w) = Ok tt <->
   minProducts <= 0).
Proof.
  intros Hlen Hhd. split.
  - destruct items1 as [|a l1], items2 as [|b l2]; simpl in *; try discriminate.
    + reflexivity.
    + injection Hhd as ->. injection Hlen as Hlen.
      unfold validateProductListResponse, extractProducts, expect_toBeGreaterThanOrEqual.
      run_js. cbn [List.length]. rewrite Hlen. reflexivity.
  - unfold validateProductListResponse, extractProducts, expect_toBeGreaterThanOrEqual.
    run_js. cbn [List.length Z.of_nat].
    destruct (Z.leb_spec minProducts 0); simpl; split; intros; try reflexivity;
      try discriminate; lia.
Qed.

Lemma validation_reads_length_and_head_witness :
  validateProductListResponse calm (JArray [JObject []; JNull; JString "x"]) 3 unstarted =
    validateProductListResponse calm (empty_objects 3) 3 unstarted /\
  fst (validateProductListResponse calm (JArray [JObject []; JNull; JString "x"]) 3
         unstarted) = Ok tt.
Proof.
  assert (H : validateProductListResponse calm (JArray [JObject []; JNull; JString "x"]) 3
                unstarted =
              validateProductListResponse calm (empty_objects 3) 3 unstarted).
  { apply (validation_reads_length_and_head calm [JObject []; JNull; JString "x"]
             (repeat (JObject []) 3) 3 unstarted); reflexivity. }
  split; [exact H|]. rewrite H. reflexivity.
Defined.

(* ===================================================================== *)
(** * Further properties: helpers/checkout *)
(* ===================================================================== *)

Ltac case_actions :=
  repeat match goal with
    | |- context [locator_click ?e ?h ?l ?t] =>
        destruct (locator_click e h l t) as [[]|?]; run_js
    | |- context [expect_toBeVisible ?e ?h ?l ?t] =>
        destruct (expect_toBeVisible e h l t) as [[]|?]; run_js
    | |- context [locator_fill ?e ?h ?l ?v ?t] =>
        destruct (locator_fill e h l v t) as [[]|?]; run_js
    end.

(** X13. [fillCheckoutForm] fills and does not submit. Whatever the
    environment answers, it never clicks the Purchase button; the fields it
    fills are an initial part of name, country, city, card, month, year, each
    with the value of the checkout data as it is; and when it returns, all
    six were filled, once each and in that order. *)
Theorem fillCheckoutForm_does_not_submit (env : Env) (pg : Page) (data : CheckoutData)
    (expectedProductName : option string) (w : World) :
  exists r w1 new,
    fillCheckoutForm env pg data expectedProductName w = (r, w1) /\
    trace w1 = (new ++ trace w)%list /\
    (forall t, ~ In (EvClick (SELECTORS.PURCHASE_BUTTON pg) t) new) /\
    (exists k, fills (rev new) = firstn k (order_form_fills pg data)) /\
    (r = Ok tt -> fills (rev new) = order_form_fills pg data).
Proof.
  unfold fillCheckoutForm, navigateToCart. unfold_actions. run_js.
  case_actions.
  all: do 3 eexists; (split; [reflexivity|]); (split; [trace_split|]).
  all: split; [intros t H; simpl in H; intuition discriminate|].
  all: split;
       [ first [ exists 0%nat; reflexivity | exists 1%nat; reflexivity
               | exists 2%nat; reflexivity | exists 3%nat; reflexivity
               | exists 4%nat; reflexivity | exists 5%nat; reflexivity
               | exists 6%nat; reflexivity ]
       | intros H; try discriminate H; reflexivity ].
Qed.

Lemma fillCheckoutForm_does_not_submit_witness :
  fst (fillCheckoutForm calm page0 CHECKOUT_DATA (Some "Samsung galaxy s6") unstarted)
    = Ok tt /\
  fills (rev (trace (snd (fillCheckoutForm calm page0 CHECKOUT_DATA
                            (Some "Samsung galaxy s6") unstarted)))) =
    order_form_fills page0 CHECKOUT_DATA.
Proof.
  destruct (fillCheckoutForm_does_not_submit calm page0 CHECKOUT_DATA
              (Some "Samsung galaxy s6") unstarted)
    as (r & w1 & new & Hrun & Htrace & _ & _ & Hall).
  rewrite Hrun. cbn [fst snd]. rewrite Htrace.
  assert (Hr : r = Ok tt).
  { cbv in Hrun. injection Hrun as <- _. reflexivity. }
  split; [exact Hr|].
  simpl. rewrite app_nil_r. apply Hall. exact Hr.
Defined.

(** X14. What [verifyOrderMessageContent] accepts. Given the text content of
    the order message, the check returns exactly when the text is a
    non-empty string that is not blank and either mentions (in lower case)
    "amount", "$", "id", "card" or "number", or contains a digit, or is at
    least ten characters long once trimmed. So any message with a digit in
    it passes, and so does any text of ten characters. *)
Theorem verifyOrderMessageContent_accepts (env : Env) (lower trim : string -> string)
    (length16 : string -> Z) (substring16 : string -> Z -> Z -> string)
    (defaultTimeout : Z) (pg : Page) (w : World) (text : option string) :
  locator_textContent env (trace w) (SELECTORS.SWEET_ALERT_MESSAGE pg) defaultTimeout
    = Ok text ->
  (fst (verifyOrderMessageContent env lower trim length16 substring16 defaultTimeout pg w)
     = Ok tt <->
   exists m,
     text = Some m /\ m <> "" /\ length16 (trim m) <> 0 /\
     (includes (lower m) "amount" = true \/ includes (lower m) "$" = true \/
      hasDigit m = true \/
      includes (lower m) "id" = true \/ includes (lower m) "card" = true \/
      includes (lower m) "number" = true \/
      10 <= length16 (trim m))).
Proof.
  intros Htext.
  unfold verifyOrderMessageContent. unfold_actions. run_js. rewrite Htext.
  destruct text as [m|]; run_js.
  - destruct (String.eqb_spec m "") as [->|Hne]; simpl.
    + split; [discriminate|]. intros (m' & [= <-] & Habs & _). contradiction.
    + destruct (Z.eqb_spec (length16 (trim m)) 0) as [Hz|Hnz]; simpl.
      * split; [discriminate|]. intros (m' & [= <-] & _ & Habs & _). contradiction.
      * destruct (includes (lower m) "amount") eqn:H1;
          destruct (includes (lower m) "$") eqn:H2;
          destruct (hasDigit m) eqn:H3;
          destruct (includes (lower m) "id") eqn:H4;
          destruct (includes (lower m) "card") eqn:H5;
          destruct (includes (lower m) "number") eqn:H6; simpl;
          try (split; [intros _; exists m; repeat split; auto; tauto
                      | intros _; reflexivity]).
        destruct (Z.ltb_spec (length16 (trim m)) 10) as [Hlt|Hge]; simpl.
        -- split; [discriminate|].
           intros (m' & [= <-] & _ & _ & H). rewrite H1, H2, H3, H4, H5, H6 in H.
           intuition (try discriminate; lia).
        -- split; [|reflexivity]. intros _. exists m. repeat split; auto.
           do 6 right. exact Hge.
  - split; [discriminate|]. intros (m & Habs & _). discriminate.
Qed.

Lemma verifyOrderMessageContent_accepts_witness :
  locator_textContent (order_message "Id: 42") (trace unstarted)
                      (SELECTORS.SWEET_ALERT_MESSAGE page0) 30000 = Ok (Some "Id: 42") /\
  fst (verifyOrderMessageContent (order_message "Id: 42") ascii_toLowerCase ascii_trim
         ascii_length ascii_substring 30000 page0 unstarted) = Ok tt /\
  fst (verifyOrderMessageContent (order_message "Thanks!") ascii_toLowerCase ascii_trim
         ascii_length ascii_substring 30000 page0 unstarted) =
    Err ("Order message content verification failed: " ++
         "Order confirmation message appears incomplete: " ++ dq ++ "Thanks!" ++ dq ++
         ". The order confirmation message may be missing or incomplete.").
Proof.
  split; [reflexivity|]. split.
  - apply (verifyOrderMessageContent_accepts (order_message "Id: 42") ascii_toLowerCase
             ascii_trim ascii_length ascii_substring 30000 page0 unstarted
             (Some "Id: 42") eq_refl).
    exists "Id: 42". split; [reflexivity|]. split; [discriminate|].
    split; [discriminate|]. right. right. left. reflexivity.
  - reflexivity.
Defined.
